(** * BaZi report generator: the client-side validator and submit handler
    of [frontend/scripts/app.js], and the geocoding resolver of the backend.

    JavaScript strings are sequences of UTF-16 code units, so [length] and
    [trim] are modelled on lists of code units.  A call that can raise is a
    function into [Completion]; the submit handler passes the page and the
    log of requests along explicitly, so that what was written before a
    raise stays written. *)

From Stdlib Require Import ZArith NArith List Bool String Ascii Lia.
From stdpp Require Import gmap strings.
Import ListNotations.

#[local] Open Scope Z_scope.

Module Frontend.

(** ** Strings *)

Definition jsstring := list N.

(** An ASCII source literal as code units. *)
Definition lit (s : string) : jsstring :=
  map N_of_ascii (list_ascii_of_string s).

(** [a === b] on two strings: same length and same code units. *)
Fixpoint jsstring_eqb (a b : jsstring) : bool :=
  match a, b with
  | [], [] => true
  | x :: a', y :: b' => (x =? y)%N && jsstring_eqb a' b'
  | _, _ => false
  end.

(** ECMAScript WhiteSpace and LineTerminator code points, the ones
    [String.prototype.trim] strips. *)
Definition isWhiteSpace (c : N) : bool :=
  ((c =? 9) || (c =? 10) || (c =? 11) || (c =? 12) || (c =? 13)
   || (c =? 32) || (c =? 160) || (c =? 5760)
   || ((8192 <=? c) && (c <=? 8202))
   || (c =? 8232) || (c =? 8233) || (c =? 8239) || (c =? 8287)
   || (c =? 12288) || (c =? 65279))%N.

Fixpoint trimStart (s : jsstring) : jsstring :=
  match s with
  | [] => []
  | c :: rest => if isWhiteSpace c then trimStart rest else s
  end.

Definition trimEnd (s : jsstring) : jsstring := rev (trimStart (rev s)).

Definition trim (s : jsstring) : jsstring := trimEnd (trimStart s).

(** ** Values and completions *)

(** What a field of [data] can hold.  [FormData.get] yields a string or
    [null] for a text control, [?.trim()] on [null] yields [undefined], and
    so does a property that is absent; a caller other than the form can pass
    any value, of which the integral numbers are modelled. *)
Inductive FieldValue :=
| FUndefined
| FNull
| FNumber (n : Z)
| FString (s : jsstring).

(** Errors a statement can raise: the engine's [TypeError] for a bad
    property read or call, the [SyntaxError] of a body that is not JSON, the
    error [fetch] rejects with when the request fails, and
    [new Error(message)]. *)
Inductive Thrown :=
| TypeError
| SyntaxError
| NetworkError
| AppError (message : jsstring).

Inductive Completion (A : Type) :=
| Normal (a : A)
| Throw (e : Thrown).
Arguments Normal {A} a.
Arguments Throw {A} e.

Definition bind {A B} (c : Completion A) (k : A -> Completion B) : Completion B :=
  match c with
  | Normal a => k a
  | Throw e => Throw e
  end.

Notation "'let*' x ':=' c 'in' k" := (bind c (fun x => k))
  (at level 10, x name, c at level 100, k at level 200).

(** [!v] *)
Definition falsy (v : FieldValue) : bool :=
  match v with
  | FUndefined | FNull => true
  | FNumber n => n =? 0
  | FString s => match s with [] => true | _ => false end
  end.

(** [v.trim()]: a property read on [undefined] or [null] raises, and a
    number has no [trim] to call. *)
Definition callTrim (v : FieldValue) : Completion jsstring :=
  match v with
  | FString s => Normal (trim s)
  | FUndefined | FNull | FNumber _ => Throw TypeError
  end.

(** [!v || v.trim() === ''], with the short circuit of [||]. *)
Definition missingOrBlank (v : FieldValue) : Completion bool :=
  if falsy v then Normal true
  else let* t := callTrim v in Normal (jsstring_eqb t []).

(** [{ valid: true }] or [{ valid: false, message }]. *)
Inductive ValidationResult :=
| Valid
| Invalid (message : jsstring).

Definition valid (r : ValidationResult) : bool :=
  match r with Valid => true | Invalid _ => false end.

(** ** validateLocation, validateTime, validateGender *)

Definition validateLocation (location : FieldValue) : Completion ValidationResult :=
  let* blank := missingOrBlank location in
  if blank then Normal (Invalid (lit "Birth location is required"))
  else
    let* trimmed := callTrim location in
    if (length trimmed <? 3)%nat
    then Normal (Invalid (lit "Location must be at least 3 characters"))
    else if (100 <? length trimmed)%nat
    then Normal (Invalid (lit "Location is too long (max 100 characters)"))
    else Normal Valid.

Definition validateTime (timeStr : FieldValue) : Completion ValidationResult :=
  let* blank := missingOrBlank timeStr in
  if blank then Normal (Invalid (lit "Birth time is required"))
  else Normal Valid.

(** [gender !== 'male'] *)
Definition strictNe (v : FieldValue) (s : jsstring) : bool :=
  match v with
  | FString t => negb (jsstring_eqb t s)
  | _ => true
  end.

Definition validateGender (gender : FieldValue) : Completion ValidationResult :=
  if falsy gender then Normal (Invalid (lit "Please select a gender"))
  else if strictNe gender (lit "male") && strictNe gender (lit "female")
  then Normal (Invalid (lit "Gender must be male or female"))
  else Normal Valid.

(** ** Dates

    A [Date] is its time value: milliseconds since 1970-01-01T00:00Z, or
    [None] for NaN (an invalid date).  The day arithmetic is ECMAScript's. *)

Definition msPerDay : Z := 86400000.

Definition InLeapYear (y : Z) : bool :=
  (y mod 4 =? 0) && (negb (y mod 100 =? 0) || (y mod 400 =? 0)).

Definition DayFromYear (y : Z) : Z :=
  365 * (y - 1970) + (y - 1969) / 4 - (y - 1901) / 100 + (y - 1601) / 400.

Definition DaysInMonth (y m : Z) : Z :=
  match m with
  | 1 | 3 | 5 | 7 | 8 | 10 | 12 => 31
  | 4 | 6 | 9 | 11 => 30
  | 2 => if InLeapYear y then 29 else 28
  | _ => 0
  end.

Definition DaysBeforeMonth (y m : Z) : Z :=
  match m with
  | 1 => 0 | 2 => 31 | 3 => 59 | 4 => 90 | 5 => 120 | 6 => 151
  | 7 => 181 | 8 => 212 | 9 => 243 | 10 => 273 | 11 => 304 | _ => 334
  end + (if InLeapYear y && (2 <? m) then 1 else 0).

(** Day number of the calendar date [y]-[m]-[d], months counted from 1. *)
Definition MakeDay (y m d : Z) : Z :=
  DayFromYear y + DaysBeforeMonth y m + (d - 1).

Definition digit (c : N) : option Z :=
  if ((48 <=? c) && (c <=? 57))%N then Some (Z.of_N c - 48) else None.

(** The date-only form [YYYY-MM-DD] of the ECMAScript date-time string
    format, with legal month and day. *)
Definition parseIsoDate (s : jsstring) : option (Z * Z * Z) :=
  match s with
  | [y1; y2; y3; y4; h1; m1; m2; h2; d1; d2] =>
      match digit y1, digit y2, digit y3, digit y4,
            digit m1, digit m2, digit d1, digit d2 with
      | Some a, Some b, Some c, Some e, Some f, Some g, Some h, Some i =>
          let y := 1000 * a + 100 * b + 10 * c + e in
          let m := 10 * f + g in
          let d := 10 * h + i in
          if ((h1 =? 45) && (h2 =? 45))%N
             && (1 <=? m) && (m <=? 12) && (1 <=? d) && (d <=? DaysInMonth y m)
          then Some (y, m, d)
          else None
      | _, _, _, _, _, _, _, _ => None
      end
  | _ => None
  end.

(** [a > b] and [a < b] on dates compare time values; with NaN both are false. *)
Definition date_gt (a b : option Z) : bool :=
  match a, b with
  | Some x, Some y => y <? x
  | _, _ => false
  end.

Definition date_lt (a b : option Z) : bool :=
  match a, b with
  | Some x, Some y => x <? y
  | _, _ => false
  end.

Section Validator.

(** The engine and the clock: what [Date.parse] makes of a string outside
    the date-only form (the standard leaves it to the implementation), the
    offset of local time from UTC in milliseconds (a zone without a
    daylight-saving change on the day), and the time value of [new Date()],
    the milliseconds elapsed since the epoch. *)
Variable fallbackParse : jsstring -> option Z.
Variable LocalTZA : Z.
Variable now : N.

(** [Date.parse]: a date-only string is that day's midnight in UTC. *)
Definition Date_parse (s : jsstring) : option Z :=
  match parseIsoDate s with
  | Some (y, m, d) => Some (MakeDay y m d * msPerDay)
  | None => fallbackParse s
  end.

(** [new Date(v)] *)
Definition newDate (v : FieldValue) : option Z :=
  match v with
  | FString s => Date_parse s
  | FNumber n => Some n
  | FNull => Some 0
  | FUndefined => None
  end.

(** [d.setHours(23, 59, 59, 999)]: the last millisecond of [d]'s local day. *)
Definition setHoursEndOfDay (t : Z) : Z :=
  let day := (t + LocalTZA) / msPerDay in
  day * msPerDay + (((23 * 60 + 59) * 60 + 59) * 1000 + 999) - LocalTZA.

Definition validateDate (dateStr : FieldValue) : Completion ValidationResult :=
  let* blank := missingOrBlank dateStr in
  if blank then Normal (Invalid (lit "Birth date is required"))
  else
    let date := newDate dateStr in
    let today := Some (setHoursEndOfDay (Z.of_N now)) in
    let minDate := Date_parse (lit "1900-01-01") in
    match date with
    | None => Normal (Invalid (lit "Please enter a valid date"))
    | Some _ =>
        if date_gt date today
        then Normal (Invalid (lit "Birth date cannot be in the future"))
        else if date_lt date minDate
        then Normal (Invalid (lit "Birth date must be after 1900"))
        else Normal Valid
    end.

(** ** validateForm *)

Record FormValues := {
  birth_date : FieldValue;
  birth_time : FieldValue;
  location : FieldValue;
  gender : FieldValue
}.

Record FormResult := {
  form_valid : bool;
  errors : list jsstring
}.

(** [if (!r.valid) errors.push(r.message)] *)
Definition pushIfInvalid (errs : list jsstring) (r : ValidationResult) : list jsstring :=
  match r with
  | Valid => errs
  | Invalid message => errs ++ [message]
  end.

Definition validateForm (data : FormValues) : Completion FormResult :=
  let errs := [] in
  let* dateResult := validateDate (birth_date data) in
  let errs := pushIfInvalid errs dateResult in
  let* timeResult := validateTime (birth_time data) in
  let errs := pushIfInvalid errs timeResult in
  let* locationResult := validateLocation (location data) in
  let errs := pushIfInvalid errs locationResult in
  let* genderResult := validateGender (gender data) in
  let errs := pushIfInvalid errs genderResult in
  Normal {| form_valid := (length errs =? 0)%nat; errors := errs |}.

End Validator.

(** ** The page, the network and the submit handler *)

(** A parsed JSON body.  Only the truth value of a number is read, so an
    integer stands for it. *)
#[local] Unset Elimination Schemes.
Inductive Json :=
| JNull
| JBool (b : bool)
| JNumber (z : Z)
| JString (s : jsstring)
| JArray (items : list Json)
| JObject (fields : list (jsstring * Json)).
#[local] Set Elimination Schemes.

Fixpoint lookupField (k : jsstring) (fields : list (jsstring * Json)) : option Json :=
  match fields with
  | [] => None
  | (k', v) :: rest => if jsstring_eqb k' k then Some v else lookupField k rest
  end.

(** [v.k] for a value that may be [undefined] ([None]): reading a property
    of [undefined] or [null] raises, a primitive or an array has none of the
    keys read here. *)
Definition getProp (v : option Json) (k : jsstring) : Completion (option Json) :=
  match v with
  | None | Some JNull => Throw TypeError
  | Some (JObject fields) => Normal (lookupField k fields)
  | Some _ => Normal None
  end.

(** [v?.k] *)
Definition getPropOptional (v : option Json) (k : jsstring) : Completion (option Json) :=
  match v with
  | None | Some JNull => Normal None
  | _ => getProp v k
  end.

Definition truthy (v : option Json) : bool :=
  match v with
  | None | Some JNull => false
  | Some (JBool b) => b
  | Some (JNumber z) => negb (z =? 0)
  | Some (JString s) => match s with [] => false | _ => true end
  | Some (JArray _) | Some (JObject _) => true
  end.

(** [a || b] *)
Definition orElse (a b : option Json) : option Json :=
  if truthy a then a else b.

Inductive Display := DisplayInitial | DisplayNone | DisplayBlock.

Inductive Element := ErrorMessage | ResultsCard | FormCard.

Record Request := {
  url : jsstring;
  method : jsstring;
  contentType : jsstring;
  body : FormValues
}.

(** What [fetch] and [response.json()] give back: the request fails, or a
    response arrives with a status and a body that is JSON or is not. *)
Inductive FetchOutcome :=
| FetchFailed
| Responded (status : Z) (json : option Json).

Record World := {
  defaultPrevented : bool;
  errorText : jsstring;
  errorVisible : bool;
  resultsVisible : bool;
  formCardDisplay : Display;
  submitDisabled : bool;
  submitLoading : bool;
  baziCharsText : jsstring;
  dayMasterText : jsstring;
  zodiacText : jsstring;
  htmlHref : jsstring;
  pdfHref : jsstring;
  scrolledTo : option Element;
  requests : list Request;
  consoleErrors : list Thrown
}.

Definition API_BASE_URL : jsstring := lit "http://localhost:8000".

Definition showError (message : option jsstring) (w : World) : World :=
  {| defaultPrevented := defaultPrevented w;
     errorText := match message with Some m => m | None => [] end;
     errorVisible := true;
     resultsVisible := resultsVisible w;
     formCardDisplay := formCardDisplay w;
     submitDisabled := submitDisabled w;
     submitLoading := submitLoading w;
     baziCharsText := baziCharsText w;
     dayMasterText := dayMasterText w;
     zodiacText := zodiacText w;
     htmlHref := htmlHref w;
     pdfHref := pdfHref w;
     scrolledTo := Some ErrorMessage;
     requests := requests w;
     consoleErrors := consoleErrors w |}.

Definition hideError (w : World) : World :=
  {| defaultPrevented := defaultPrevented w;
     errorText := [];
     errorVisible := false;
     resultsVisible := resultsVisible w;
     formCardDisplay := formCardDisplay w;
     submitDisabled := submitDisabled w;
     submitLoading := submitLoading w;
     baziCharsText := baziCharsText w;
     dayMasterText := dayMasterText w;
     zodiacText := zodiacText w;
     htmlHref := htmlHref w;
     pdfHref := pdfHref w;
     scrolledTo := scrolledTo w;
     requests := requests w;
     consoleErrors := consoleErrors w |}.

Definition setLoading (isLoading : bool) (w : World) : World :=
  {| defaultPrevented := defaultPrevented w;
     errorText := errorText w;
     errorVisible := errorVisible w;
     resultsVisible := resultsVisible w;
     formCardDisplay := formCardDisplay w;
     submitDisabled := isLoading;
     submitLoading := isLoading;
     baziCharsText := baziCharsText w;
     dayMasterText := dayMasterText w;
     zodiacText := zodiacText w;
     htmlHref := htmlHref w;
     pdfHref := pdfHref w;
     scrolledTo := scrolledTo w;
     requests := requests w;
     consoleErrors := consoleErrors w |}.

Definition hideResults (w : World) : World :=
  {| defaultPrevented := defaultPrevented w;
     errorText := errorText w;
     errorVisible := errorVisible w;
     resultsVisible := false;
     formCardDisplay := formCardDisplay w;
     submitDisabled := submitDisabled w;
     submitLoading := submitLoading w;
     baziCharsText := baziCharsText w;
     dayMasterText := dayMasterText w;
     zodiacText := zodiacText w;
     htmlHref := htmlHref w;
     pdfHref := pdfHref w;
     scrolledTo := scrolledTo w;
     requests := requests w;
     consoleErrors := consoleErrors w |}.

Definition preventDefault (w : World) : World :=
  {| defaultPrevented := true;
     errorText := errorText w;
     errorVisible := errorVisible w;
     resultsVisible := resultsVisible w;
     formCardDisplay := formCardDisplay w;
     submitDisabled := submitDisabled w;
     submitLoading := submitLoading w;
     baziCharsText := baziCharsText w;
     dayMasterText := dayMasterText w;
     zodiacText := zodiacText w;
     htmlHref := htmlHref w;
     pdfHref := pdfHref w;
     scrolledTo := scrolledTo w;
     requests := requests w;
     consoleErrors := consoleErrors w |}.

(** [fetch] puts the request on the wire. *)
Definition send (r : Request) (w : World) : World :=
  {| defaultPrevented := defaultPrevented w;
     errorText := errorText w;
     errorVisible := errorVisible w;
     resultsVisible := resultsVisible w;
     formCardDisplay := formCardDisplay w;
     submitDisabled := submitDisabled w;
     submitLoading := submitLoading w;
     baziCharsText := baziCharsText w;
     dayMasterText := dayMasterText w;
     zodiacText := zodiacText w;
     htmlHref := htmlHref w;
     pdfHref := pdfHref w;
     scrolledTo := scrolledTo w;
     requests := requests w ++ [r];
     consoleErrors := consoleErrors w |}.

Definition consoleError (e : Thrown) (w : World) : World :=
  {| defaultPrevented := defaultPrevented w;
     errorText := errorText w;
     errorVisible := errorVisible w;
     resultsVisible := resultsVisible w;
     formCardDisplay := formCardDisplay w;
     submitDisabled := submitDisabled w;
     submitLoading := submitLoading w;
     baziCharsText := baziCharsText w;
     dayMasterText := dayMasterText w;
     zodiacText := zodiacText w;
     htmlHref := htmlHref w;
     pdfHref := pdfHref w;
     scrolledTo := scrolledTo w;
     requests := requests w;
     consoleErrors := consoleErrors w ++ [e] |}.

Definition setSummary (chars master sign : jsstring) (w : World) : World :=
  {| defaultPrevented := defaultPrevented w;
     errorText := errorText w;
     errorVisible := errorVisible w;
     resultsVisible := resultsVisible w;
     formCardDisplay := formCardDisplay w;
     submitDisabled := submitDisabled w;
     submitLoading := submitLoading w;
     baziCharsText := chars;
     dayMasterText := master;
     zodiacText := sign;
     htmlHref := htmlHref w;
     pdfHref := pdfHref w;
     scrolledTo := scrolledTo w;
     requests := requests w;
     consoleErrors := consoleErrors w |}.

Definition setHtmlLink (href : jsstring) (w : World) : World :=
  {| defaultPrevented := defaultPrevented w;
     errorText := errorText w;
     errorVisible := errorVisible w;
     resultsVisible := resultsVisible w;
     formCardDisplay := formCardDisplay w;
     submitDisabled := submitDisabled w;
     submitLoading := submitLoading w;
     baziCharsText := baziCharsText w;
     dayMasterText := dayMasterText w;
     zodiacText := zodiacText w;
     htmlHref := href;
     pdfHref := pdfHref w;
     scrolledTo := scrolledTo w;
     requests := requests w;
     consoleErrors := consoleErrors w |}.

Definition setPdfLink (href : jsstring) (w : World) : World :=
  {| defaultPrevented := defaultPrevented w;
     errorText := errorText w;
     errorVisible := errorVisible w;
     resultsVisible := resultsVisible w;
     formCardDisplay := formCardDisplay w;
     submitDisabled := submitDisabled w;
     submitLoading := submitLoading w;
     baziCharsText := baziCharsText w;
     dayMasterText := dayMasterText w;
     zodiacText := zodiacText w;
     htmlHref := htmlHref w;
     pdfHref := href;
     scrolledTo := scrolledTo w;
     requests := requests w;
     consoleErrors := consoleErrors w |}.

(** Hide the form, show the results card and scroll to it. *)
Definition revealResults (w : World) : World :=
  {| defaultPrevented := defaultPrevented w;
     errorText := errorText w;
     errorVisible := errorVisible w;
     resultsVisible := true;
     formCardDisplay := DisplayNone;
     submitDisabled := submitDisabled w;
     submitLoading := submitLoading w;
     baziCharsText := baziCharsText w;
     dayMasterText := dayMasterText w;
     zodiacText := zodiacText w;
     htmlHref := htmlHref w;
     pdfHref := pdfHref w;
     scrolledTo := Some ResultsCard;
     requests := requests w;
     consoleErrors := consoleErrors w |}.

(** The form's entries in document order; [get] returns the first value
    under a name, or [null]. *)
Definition FormData := list (jsstring * jsstring).

Fixpoint formDataGet (name : jsstring) (fd : FormData) : option jsstring :=
  match fd with
  | [] => None
  | (k, v) :: rest => if jsstring_eqb k name then Some v else formDataGet name rest
  end.

Definition entry (e : option jsstring) : FieldValue :=
  match e with
  | Some s => FString s
  | None => FNull
  end.

(** The object literal [data] of the handler; [location] is read with
    [?.trim()]. *)
Definition readForm (fd : FormData) : FormValues :=
  {| birth_date := entry (formDataGet (lit "birth_date") fd);
     birth_time := entry (formDataGet (lit "birth_time") fd);
     location := match formDataGet (lit "location") fd with
                 | Some s => FString (trim s)
                 | None => FUndefined
                 end;
     gender := entry (formDataGet (lit "gender") fd) |}.

Definition reportRequest (data : FormValues) : Request :=
  {| url := API_BASE_URL ++ lit "/api/generate-report";
     method := lit "POST";
     contentType := lit "application/json";
     body := data |}.

(** [response.ok] *)
Definition responseOk (status : Z) : bool := (200 <=? status) && (status <=? 299).

Definition rateLimitMessage : jsstring :=
  lit "Rate limit exceeded. Please wait a few minutes before trying again.".

(** The keys of [bazi_summary]: the BaZi characters, the day master and the
    zodiac sign, as code units. *)
Definition keyBazi : jsstring := [20843; 23383]%N.
Definition keyDayMaster : jsstring := [26085; 20027]%N.
Definition keyZodiac : jsstring := [29983; 32918]%N.

Section Handler.

Variable fallbackParse : jsstring -> option Z.
Variable LocalTZA : Z.
Variable now : N.

(** The engine's [String(v)] for a number, an array or an object, the text
    of the errors it raises itself, and the server's answer to a request. *)
Variable ToStringOther : Json -> jsstring.
Variable engineMessage : Thrown -> jsstring.
Variable network : Request -> FetchOutcome.

(** [String(v)], as a template literal or [new Error(v)] applies it. *)
Definition ToString (v : option Json) : jsstring :=
  match v with
  | None => lit "undefined"
  | Some JNull => lit "null"
  | Some (JBool true) => lit "true"
  | Some (JBool false) => lit "false"
  | Some (JString s) => s
  | Some other => ToStringOther other
  end.

(** [error.message] *)
Definition errorMessageOf (e : Thrown) : jsstring :=
  match e with
  | AppError message => message
  | _ => engineMessage e
  end.

(** [result.detail?.message || result.error || 'Report generation failed'] *)
Definition failureDetail (result : Json) : Completion (option Json) :=
  let* detail := getProp (Some result) (lit "detail") in
  let* message := getPropOptional detail (lit "message") in
  if truthy message then Normal message
  else
    let* err := getProp (Some result) (lit "error") in
    Normal (orElse err (Some (JString (lit "Report generation failed")))).

(** [result.bazi_summary[key] || '-'] *)
Definition summaryField (result : Json) (key : jsstring) : Completion jsstring :=
  let* summary := getProp (Some result) (lit "bazi_summary") in
  let* v := getProp summary key in
  Normal (ToString (orElse v (Some (JString (lit "-"))))).

(** [`${API_BASE_URL}${result.files[kind]}`] *)
Definition fileLink (result : Json) (kind : jsstring) : Completion jsstring :=
  let* files := getProp (Some result) (lit "files") in
  let* path := getProp files kind in
  Normal (API_BASE_URL ++ ToString path).

(** [displayResults]: each assignment takes effect before the next
    expression is evaluated, so a raise leaves the earlier ones in place. *)
Definition displayResults (result : Json) (w : World) : Completion unit * World :=
  match summaryField result keyBazi with
  | Throw e => (Throw e, w)
  | Normal chars =>
  let w := setSummary chars (dayMasterText w) (zodiacText w) w in
  match summaryField result keyDayMaster with
  | Throw e => (Throw e, w)
  | Normal master =>
  let w := setSummary (baziCharsText w) master (zodiacText w) w in
  match summaryField result keyZodiac with
  | Throw e => (Throw e, w)
  | Normal sign =>
  let w := setSummary (baziCharsText w) (dayMasterText w) sign w in
  match fileLink result (lit "html") with
  | Throw e => (Throw e, w)
  | Normal html =>
  let w := setHtmlLink html w in
  match fileLink result (lit "pdf") with
  | Throw e => (Throw e, w)
  | Normal pdf =>
  let w := setPdfLink pdf w in
  (Normal tt, revealResults w)
  end end end end end.

(** The body of the [try] block. *)
Definition requestReport (data : FormValues) (w : World) : Completion unit * World :=
  let request := reportRequest data in
  let w := send request w in
  match network request with
  | FetchFailed => (Throw NetworkError, w)
  | Responded status json =>
      match json with
      | None => (Throw SyntaxError, w)
      | Some result =>
          if negb (responseOk status) then
            if status =? 429 then (Throw (AppError rateLimitMessage), w)
            else
              match failureDetail result with
              | Throw e => (Throw e, w)
              | Normal detail => (Throw (AppError (ToString detail)), w)
              end
          else displayResults result w
      end
  end.

(** [showError(error.message || 'Something went wrong. Please try again.')] *)
Definition reportFailure (error : Thrown) (w : World) : World :=
  let w := consoleError error w in
  let message := errorMessageOf error in
  showError
    (Some match message with
          | [] => lit "Something went wrong. Please try again."
          | _ => message
          end) w.

(** The [submit] listener of the form. *)
Definition onSubmit (fd : FormData) (w : World) : Completion unit * World :=
  let w := preventDefault w in
  let w := hideError w in
  let data := readForm fd in
  match validateForm fallbackParse LocalTZA now data with
  | Throw e => (Throw e, w)
  | Normal validation =>
      if negb (form_valid validation)
      then (Normal tt, showError (hd_error (errors validation)) w)
      else
        let w := setLoading true w in
        let w := hideResults w in
        let '(outcome, w) := requestReport data w in
        let w := match outcome with
                 | Normal _ => w
                 | Throw error => reportFailure error w
                 end in
        let w := setLoading false w in
        (Normal tt, w)
  end.

End Handler.

(** ** Vocabulary of the properties *)

(** A value a form control yields: a string, [null] or [undefined]. *)
Definition isRaw (v : FieldValue) : bool :=
  match v with
  | FNumber _ => false
  | _ => true
  end.

(** Whether a field counts as missing: no value, or only white space. *)
Definition isBlank (v : FieldValue) : bool :=
  match v with
  | FString s => jsstring_eqb (trim s) []
  | _ => true
  end.

(** All four fields of [data] are raw. *)
Definition rawFields (data : FormValues) : bool :=
  isRaw (birth_date data) && isRaw (birth_time data)
  && isRaw (location data) && isRaw (gender data).

(** The messages of the failing results, in order. *)
Definition failureMessages (rs : list ValidationResult) : list jsstring :=
  flat_map (fun r => match r with Valid => [] | Invalid m => [m] end) rs.

(** A submission without a time and without a gender. *)
Definition sampleData : FormValues :=
  {| birth_date := FString (lit "1993-09-28");
     birth_time := FString (lit "");
     location := FString (lit "Singapore");
     gender := FNull |}.

(** The messages of the two date rules. *)
Definition futureMessage : jsstring := lit "Birth date cannot be in the future".
Definition minDateMessage : jsstring := lit "Birth date must be after 1900".

(** The time value of [new Date('1900-01-01')]. *)
Definition minDateValue : Z := MakeDay 1900 1 1 * msPerDay.

(** The local calendar day, as a day number, of the time value [t]. *)
Definition localDay (LocalTZA t : Z) : Z := (t + LocalTZA) / msPerDay.

(** The page as it is loaded, and two forms: a complete one, and one with
    an empty time, a short location and no gender. *)
Definition initialWorld : World :=
  {| defaultPrevented := false;
     errorText := [];
     errorVisible := false;
     resultsVisible := false;
     formCardDisplay := DisplayInitial;
     submitDisabled := false;
     submitLoading := false;
     baziCharsText := [];
     dayMasterText := [];
     zodiacText := [];
     htmlHref := [];
     pdfHref := [];
     scrolledTo := None;
     requests := [];
     consoleErrors := [] |}.

Definition sampleForm : FormData :=
  [ (lit "birth_date", lit "1993-09-28");
    (lit "birth_time", lit "02:22");
    (lit "location", lit "Singapore");
    (lit "gender", lit "male") ].

Definition incompleteForm : FormData :=
  [ (lit "birth_date", lit "1993-09-28");
    (lit "birth_time", lit "");
    (lit "location", lit "SG") ].

End Frontend.

Module Geocoding.

(** ** The geocoding resolver

    The backend's geocoding service is not among the sources; what follows
    is read off the specification.  Two things the specification leaves
    open are parameters: the function that trims and case-folds the
    location text, and whether the UTC fallback handed out on a provider
    error is itself put in the cache (it says that successful resolutions
    are cached, and says nothing of the fallback). *)

(** Modelled from the spec: a resolution, which is missing with the rest of
    the geocoding service.  It carries the timezone identifier, the
    coordinates (in millionths of a degree) when there are any, and the tag
    that tells a fallback from a genuine resolution. *)
Record GeoResolution := {
  timezone : string;
  coordinates : option (Z * Z);
  isFallback : bool
}.

(** Modelled from the spec: the geocoding provider as the resolver sees
    it, absent with the service: the answer to a query is coordinates and a
    timezone, or [None] on error or timeout. *)
Definition Provider := string -> option (Z * Z * string).

(** Modelled from the spec: the state of the resolver, missing with the
    geocoding service: the in-memory cache keyed by normalized text, the
    number of permits taken from the rate limiter and the number of calls
    sent to the provider. *)
Record Resolver := {
  cache : gmap string GeoResolution;
  limiterPermits : nat;
  outboundCalls : nat
}.

(** Modelled from the spec: the resolver of a fresh process, and the
    fallback result (timezone UTC, no coordinates, tagged). *)
Definition emptyResolver : Resolver :=
  {| cache := ∅; limiterPermits := 0; outboundCalls := 0 |}.

Definition utcFallback : GeoResolution :=
  {| timezone := "UTC"; coordinates := None; isFallback := true |}.

Section Resolve.

(** Modelled from the spec: the normalization of the location text
    (trimmed, case-folded), done by the absent service, and its policy for
    the fallback, which the specification does not state. *)
Variable normalize : string -> string.
Variable cachesFallback : bool.

(** Modelled from the spec: [resolve], missing with the geocoding service.
    A cache hit returns the entry and touches neither the limiter nor the
    provider.  A miss takes a permit and calls the provider: a successful
    resolution is cached under the normalized text; an error or timeout
    gives the UTC fallback, tagged, without coordinates, cached or not as
    the policy says. *)
Definition resolve (provider : Provider) (text : string) (st : Resolver)
  : GeoResolution * Resolver :=
  let key := normalize text in
  match cache st !! key with
  | Some hit => (hit, st)
  | None =>
      let permits := S (limiterPermits st) in
      let calls := S (outboundCalls st) in
      match provider text with
      | Some (lat, lon, tz) =>
          let g := {| timezone := tz; coordinates := Some (lat, lon);
                      isFallback := false |} in
          (g, {| cache := <[key := g]> (cache st);
                 limiterPermits := permits;
                 outboundCalls := calls |})
      | None =>
          (utcFallback,
           {| cache := if cachesFallback
                       then <[key := utcFallback]> (cache st)
                       else cache st;
              limiterPermits := permits;
              outboundCalls := calls |})
      end
  end.

(** Modelled from the spec: the resolutions of one process, in order, each
    with the provider's behaviour at that moment. *)
Fixpoint resolveAll (requests : list (Provider * string)) (st : Resolver) : Resolver :=
  match requests with
  | [] => st
  | (provider, text) :: rest => resolveAll rest (snd (resolve provider text st))
  end.

End Resolve.

End Geocoding.

Module Startup.
Import Frontend.

(** ** The page-load listener and the New Report button *)

(** [YearFromTime] is the year whose first day is the last one not after
    the given day; counted down from an estimate that is never too small
    for a day since the epoch. *)
Fixpoint yearDown (fuel : nat) (y day : Z) : Z :=
  match fuel with
  | O => y
  | S fuel' => if DayFromYear y <=? day then y else yearDown fuel' (y - 1) day
  end.

Definition YearFromDay (day : Z) : Z :=
  yearDown (Z.to_nat (day / 365)) (1970 + day / 365) day.

(** [MonthFromTime], counted from 1, for the day [n] within year [y]. *)
Definition MonthFromDay (y n : Z) : Z :=
  if n <? DaysBeforeMonth y 2 then 1
  else if n <? DaysBeforeMonth y 3 then 2
  else if n <? DaysBeforeMonth y 4 then 3
  else if n <? DaysBeforeMonth y 5 then 4
  else if n <? DaysBeforeMonth y 6 then 5
  else if n <? DaysBeforeMonth y 7 then 6
  else if n <? DaysBeforeMonth y 8 then 7
  else if n <? DaysBeforeMonth y 9 then 8
  else if n <? DaysBeforeMonth y 10 then 9
  else if n <? DaysBeforeMonth y 11 then 10
  else if n <? DaysBeforeMonth y 12 then 11
  else 12.

(** The calendar date of a day number. *)
Definition civilFromDay (day : Z) : Z * Z * Z :=
  let y := YearFromDay day in
  let n := day - DayFromYear y in
  let m := MonthFromDay y n in
  (y, m, n - DaysBeforeMonth y m + 1).

(** The decimal digit of [x] in the units place, as a code unit. *)
Definition digitChar (x : Z) : N := Z.to_N (48 + x mod 10).

Definition pad2 (x : Z) : jsstring := [digitChar (x / 10); digitChar x].

Definition pad3 (x : Z) : jsstring :=
  [digitChar (x / 100); digitChar (x / 10); digitChar x].

Definition pad4 (x : Z) : jsstring :=
  [digitChar (x / 1000); digitChar (x / 100); digitChar (x / 10); digitChar x].

Definition pad6 (x : Z) : jsstring :=
  [digitChar (x / 100000); digitChar (x / 10000); digitChar (x / 1000);
   digitChar (x / 100); digitChar (x / 10); digitChar x].

(** [new Date(t).toISOString()] for a time value since the epoch: the UTC
    fields as [YYYY-MM-DDTHH:mm:ss.sssZ], the year with a sign and six
    digits from 10000 on. *)
Definition toISOString (t : N) : jsstring :=
  let t := Z.of_N t in
  let '(y, m, d) := civilFromDay (t / msPerDay) in
  let ms := t mod msPerDay in
  (if y <=? 9999 then pad4 y else 43%N :: pad6 y)
  ++ [45%N] ++ pad2 m ++ [45%N] ++ pad2 d
  ++ [84%N] ++ pad2 (ms / 3600000) ++ [58%N] ++ pad2 (ms / 60000 mod 60)
  ++ [58%N] ++ pad2 (ms / 1000 mod 60) ++ [46%N] ++ pad3 (ms mod 1000)
  ++ [90%N].

(** The first millisecond of the year 10000. *)
Definition yearTenThousand : N := 253402300800000.

(** [s.split('T')[0]]: what comes before the first [T], all of [s] when
    there is none. *)
Fixpoint beforeT (s : jsstring) : jsstring :=
  match s with
  | [] => []
  | c :: rest => if (c =? 84)%N then [] else c :: beforeT rest
  end.

(** The attributes and values the load listener touches. *)
Record Inputs := {
  dateMax : jsstring;
  dateMin : jsstring;
  timeValue : jsstring;
  locationValue : jsstring;
  locationInvalid : bool
}.

(** The [DOMContentLoaded] listener: the bounds of the date picker and
    the default time. *)
Definition onDOMContentLoaded (now : N) (i : Inputs) : Inputs :=
  let today := beforeT (toISOString now) in
  {| dateMax := today;
     dateMin := lit "1900-01-01";
     timeValue := match timeValue i with
                  | [] => lit "12:00"
                  | _ => timeValue i
                  end;
     locationValue := locationValue i;
     locationInvalid := locationInvalid i |}.

(** The [blur] listener of the location input: the class [invalid] is put
    on or taken off by the verdict of validateLocation. *)
Definition onLocationBlur (i : Inputs) : Completion Inputs :=
  let* result := validateLocation (FString (locationValue i)) in
  Normal {| dateMax := dateMax i;
            dateMin := dateMin i;
            timeValue := timeValue i;
            locationValue := locationValue i;
            locationInvalid := negb (valid result) |}.

(** The [click] listener of the New Report button.  [form.reset()] puts
    every control back to the default of the markup, so the entries the
    form would submit are the default ones. *)
Definition onNewReport (defaults : FormData) (w : World) : FormData * World :=
  let w := hideError w in
  (defaults,
   {| defaultPrevented := defaultPrevented w;
      errorText := errorText w;
      errorVisible := errorVisible w;
      resultsVisible := false;
      formCardDisplay := DisplayBlock;
      submitDisabled := submitDisabled w;
      submitLoading := submitLoading w;
      baziCharsText := baziCharsText w;
      dayMasterText := dayMasterText w;
      zodiacText := zodiacText w;
      htmlHref := htmlHref w;
      pdfHref := pdfHref w;
      scrolledTo := Some FormCard;
      requests := requests w;
      consoleErrors := consoleErrors w |}).

(** ** Vocabulary of the further properties *)

(** An integral number other than zero: a value that passes [!v] and has
    no [trim]. *)
Definition nonZeroNumber (v : FieldValue) : bool :=
  match v with
  | FNumber n => negb (n =? 0)
  | _ => false
  end.

(** Whether one of the three fields that are trimmed holds such a number. *)
Definition trimsANumber (data : FormValues) : bool :=
  nonZeroNumber (birth_date data) || nonZeroNumber (birth_time data)
  || nonZeroNumber (location data).

(** The messages of a form in which every field is missing. *)
Definition requiredMessages : list jsstring :=
  [ lit "Birth date is required";
    lit "Birth time is required";
    lit "Birth location is required";
    lit "Please select a gender" ].

(** A success body with one summary field and the HTML path only. *)
Definition okBody : Json :=
  JObject [ (lit "report_id", JString (lit "abc123"));
            (lit "bazi_summary", JObject [ (keyBazi, JString (lit "x y z w")) ]);
            (lit "files", JObject [ (lit "html", JString (lit "/reports/abc123/report.html")) ]) ].

End Startup.

Module FrontendFacts.
Import Frontend.

(** ** Properties of the field validators *)

Lemma jsstring_eqb_nil (t : jsstring) : jsstring_eqb t [] = true <-> t = [].
Proof. destruct t; simpl; split; congruence. Qed.

(** On a raw value the guard [!v || v.trim() === ''] never reaches a
    [trim] that is not there. *)
Lemma missingOrBlank_raw (v : FieldValue) :
  isRaw v = true -> missingOrBlank v = Normal (isBlank v).
Proof. destruct v as [| |n|[|c s]]; simpl; try discriminate; reflexivity. Qed.

Lemma callTrim_not_blank (v : FieldValue) :
  isBlank v = false -> exists s, v = FString s /\ callTrim v = Normal (trim s).
Proof. destruct v; simpl; try discriminate. eauto. Qed.

Lemma validateTime_raw (v : FieldValue) :
  isRaw v = true ->
  validateTime v =
  Normal (if isBlank v then Invalid (lit "Birth time is required") else Valid).
Proof.
  intros Hr. unfold validateTime. rewrite (missingOrBlank_raw v Hr). simpl.
  destruct (isBlank v); reflexivity.
Qed.

Lemma validateLocation_raw (v : FieldValue) :
  isRaw v = true -> exists r, validateLocation v = Normal r.
Proof.
  intros Hr. unfold validateLocation. rewrite (missingOrBlank_raw v Hr). simpl.
  destruct (isBlank v) eqn:Hb; [eauto|].
  destruct (callTrim_not_blank v Hb) as (s & -> & ->). simpl.
  repeat case_match; eauto.
Qed.

Lemma validateGender_total (v : FieldValue) :
  exists r, validateGender v = Normal r.
Proof. unfold validateGender. repeat case_match; eauto. Qed.

Lemma validateDate_raw fallbackParse LocalTZA now (v : FieldValue) :
  isRaw v = true -> exists r, validateDate fallbackParse LocalTZA now v = Normal r.
Proof.
  intros Hr. unfold validateDate. rewrite (missingOrBlank_raw v Hr). simpl.
  repeat case_match; eauto.
Qed.

Lemma validateForm_results fallbackParse LocalTZA now (data : FormValues) :
  rawFields data = true ->
  exists rd rt rl rg,
    validateDate fallbackParse LocalTZA now (birth_date data) = Normal rd /\
    validateTime (birth_time data) = Normal rt /\
    validateLocation (location data) = Normal rl /\
    validateGender (gender data) = Normal rg /\
    validateForm fallbackParse LocalTZA now data =
      Normal {| form_valid := valid rd && valid rt && valid rl && valid rg;
                errors := failureMessages [rd; rt; rl; rg] |}.
Proof.
  unfold rawFields. rewrite !andb_true_iff. intros [[[Hd Ht] Hl] Hg].
  destruct (validateDate_raw fallbackParse LocalTZA now _ Hd) as [rd Ed].
  destruct (validateLocation_raw _ Hl) as [rl El].
  destruct (validateGender_total (gender data)) as [rg Eg].
  exists rd, (if isBlank (birth_time data)
              then Invalid (lit "Birth time is required") else Valid), rl, rg.
  repeat split; auto using validateTime_raw.
  unfold validateForm. rewrite Ed, (validateTime_raw _ Ht), El, Eg. simpl.
  destruct rd, (isBlank (birth_time data)), rl, rg; reflexivity.
Qed.

(** A form is valid exactly when it has no error message. *)
Lemma validateForm_valid_errors fallbackParse LocalTZA now (data : FormValues) r :
  validateForm fallbackParse LocalTZA now data = Normal r ->
  form_valid r = match errors r with [] => true | _ => false end.
Proof.
  unfold validateForm.
  destruct (validateDate _ _ _ _) as [rd|]; [|discriminate].
  destruct (validateTime _) as [rt|]; [|discriminate].
  destruct (validateLocation _) as [rl|]; [|discriminate].
  destruct (validateGender _) as [rg|]; [|discriminate].
  simpl. intros [= <-]. simpl.
  destruct rd, rt, rl, rg; reflexivity.
Qed.

(** C1: validateForm returns a verdict and a message list for every set of
    raw field values (strings, [null], [undefined]): it is valid exactly
    when the date, time, location and gender validators all report valid,
    and its errors are the messages of the failing fields in the order
    date, time, location, gender. *)
Theorem validateForm_spec fallbackParse LocalTZA now (data : FormValues) :
  rawFields data = true ->
  exists rd rt rl rg,
    validateDate fallbackParse LocalTZA now (birth_date data) = Normal rd /\
    validateTime (birth_time data) = Normal rt /\
    validateLocation (location data) = Normal rl /\
    validateGender (gender data) = Normal rg /\
    validateForm fallbackParse LocalTZA now data =
      Normal {| form_valid := valid rd && valid rt && valid rl && valid rg;
                errors := failureMessages [rd; rt; rl; rg] |}.
Proof. apply validateForm_results. Qed.

Lemma validateForm_spec_witness :
  exists rd rt rl rg,
    validateDate (fun _ => None) 0 1793556000000 (birth_date sampleData) = Normal rd /\
    validateTime (birth_time sampleData) = Normal rt /\
    validateLocation (location sampleData) = Normal rl /\
    validateGender (gender sampleData) = Normal rg /\
    validateForm (fun _ => None) 0 1793556000000 sampleData =
      Normal {| form_valid := valid rd && valid rt && valid rl && valid rg;
                errors := failureMessages [rd; rt; rl; rg] |}.
Proof.
  apply (validateForm_spec (fun _ => None) 0 1793556000000 sampleData).
  reflexivity.
Defined.

Example validateForm_sample :
  validateForm (fun _ => None) 0 1793556000000 sampleData =
  Normal {| form_valid := false;
            errors := [lit "Birth time is required"; lit "Please select a gender"] |}.
Proof. reflexivity. Qed.

(** C5, as stated, fails: on a number that is not zero validateDate calls
    a [trim] that does not exist and raises, and validateForm with it. *)
Lemma validateDate_number_throws :
  validateDate (fun _ => None) 0 1793556000000 (FNumber 19930928) = Throw TypeError /\
  validateForm (fun _ => None) 0 1793556000000
    {| birth_date := FNumber 19930928;
       birth_time := FString (lit "02:22");
       location := FString (lit "Singapore");
       gender := FString (lit "male") |} = Throw TypeError.
Proof. split; reflexivity. Qed.

(** C5, amended: on every field value that is a string of any content,
    [null] or [undefined], each field validator returns a result object;
    validateGender does so on every value; and validateForm returns a result
    object on every set of such values.  None of them raises. *)
Theorem validators_never_throw_raw fallbackParse LocalTZA now :
  (forall v, isRaw v = true ->
     exists r, validateDate fallbackParse LocalTZA now v = Normal r) /\
  (forall v, isRaw v = true -> exists r, validateTime v = Normal r) /\
  (forall v, isRaw v = true -> exists r, validateLocation v = Normal r) /\
  (forall v, exists r, validateGender v = Normal r) /\
  (forall data, rawFields data = true ->
     exists r, validateForm fallbackParse LocalTZA now data = Normal r).
Proof.
  repeat split.
  - apply validateDate_raw.
  - intros v Hr. rewrite (validateTime_raw v Hr). eauto.
  - apply validateLocation_raw.
  - apply validateGender_total.
  - intros data Hr.
    destruct (validateForm_results fallbackParse LocalTZA now data Hr)
      as (rd & rt & rl & rg & _ & _ & _ & _ & H).
    eauto.
Qed.

Lemma validators_never_throw_raw_witness :
  (exists r, validateDate (fun _ => None) 0 1793556000000 FNull = Normal r) /\
  (exists r, validateTime FUndefined = Normal r) /\
  (exists r, validateLocation (FString (lit "")) = Normal r) /\
  (exists r, validateForm (fun _ => None) 0 1793556000000 sampleData = Normal r).
Proof.
  pose proof (validators_never_throw_raw (fun _ => None) 0 1793556000000)
    as (Hd & Ht & Hl & _ & Hf).
  repeat split.
  - apply Hd. reflexivity.
  - apply Ht. reflexivity.
  - apply Hl. reflexivity.
  - apply Hf. reflexivity.
Defined.

(** ** Properties of validateDate *)

(** Linear arithmetic with the floor divisions by constants of the day
    arithmetic. *)
Ltac day_lia := Z.div_mod_to_equations; lia.

Lemma minDateValue_eq : minDateValue = -2208988800000.
Proof. reflexivity. Qed.

Lemma Date_parse_minDate fallbackParse :
  Date_parse fallbackParse (lit "1900-01-01") = Some minDateValue.
Proof. reflexivity. Qed.

(** The end of today is not before now, and is the last millisecond of the
    local day that contains now. *)
Lemma setHoursEndOfDay_ge LocalTZA t : t <= setHoursEndOfDay LocalTZA t.
Proof. unfold setHoursEndOfDay, msPerDay. cbv zeta. day_lia. Qed.

Lemma setHoursEndOfDay_day LocalTZA t :
  setHoursEndOfDay LocalTZA t + LocalTZA
  = ((t + LocalTZA) / msPerDay + 1) * msPerDay - 1.
Proof. unfold setHoursEndOfDay, msPerDay. lia. Qed.

(** The clock reads a time since the epoch, so today ends after 1900. *)
Lemma today_after_minDate LocalTZA (now : N) :
  minDateValue < setHoursEndOfDay LocalTZA (Z.of_N now).
Proof.
  pose proof (setHoursEndOfDay_ge LocalTZA (Z.of_N now)).
  rewrite minDateValue_eq. lia.
Qed.

(** What validateDate answers on a string that is not blank and that the
    engine parses to the time value [t]. *)
Lemma validateDate_parsed fallbackParse LocalTZA now (s : jsstring) (t : Z) :
  trim s <> [] ->
  Date_parse fallbackParse s = Some t ->
  validateDate fallbackParse LocalTZA now (FString s) =
  Normal (if setHoursEndOfDay LocalTZA (Z.of_N now) <? t then Invalid futureMessage
          else if t <? minDateValue then Invalid minDateMessage
          else Valid).
Proof.
  intros Hs Hp. unfold validateDate. rewrite missingOrBlank_raw by reflexivity.
  simpl. destruct (jsstring_eqb (trim s) []) eqn:Hb.
  { apply jsstring_eqb_nil in Hb. contradiction. }
  simpl. rewrite Hp, Date_parse_minDate. simpl.
  repeat case_match; reflexivity.
Qed.

Lemma digit_bounds (c : N) (z : Z) : digit c = Some z -> 0 <= z <= 9 /\ (48 <= c <= 57)%N.
Proof.
  unfold digit. destruct (N.leb_spec 48 c), (N.leb_spec c 57); simpl; try discriminate.
  intros [= <-]. lia.
Qed.

Lemma digit_not_space (c : N) (z : Z) : digit c = Some z -> isWhiteSpace c = false.
Proof.
  intros H. apply digit_bounds in H as [_ H]. unfold isWhiteSpace.
  repeat match goal with
         | |- context [(c =? ?k)%N] => rewrite (proj2 (N.eqb_neq c k)) by lia
         end.
  rewrite (proj2 (N.leb_gt 8192 c)) by lia. reflexivity.
Qed.

(** A string in the date-only form has no white space at either end. *)
Lemma parseIsoDate_trim (s : jsstring) (ymd : Z * Z * Z) :
  parseIsoDate s = Some ymd -> trim s = s /\ s <> [].
Proof.
  unfold parseIsoDate.
  destruct s as [|y1 [|y2 [|y3 [|y4 [|h1 [|m1 [|m2 [|h2 [|d1 [|d2 [|x s]]]]]]]]]]];
    try discriminate.
  destruct (digit y1) eqn:E1; try discriminate.
  destruct (digit y2), (digit y3), (digit y4), (digit m1), (digit m2),
    (digit d1); try discriminate.
  destruct (digit d2) eqn:E2; try discriminate.
  intros _. split; [|discriminate].
  unfold trim, trimEnd. simpl.
  rewrite (digit_not_space _ _ E1). simpl.
  rewrite (digit_not_space _ _ E2). reflexivity.
Qed.

Lemma parseIsoDate_range (s : jsstring) (y m d : Z) :
  parseIsoDate s = Some (y, m, d) ->
  0 <= y <= 9999 /\ 1 <= m <= 12 /\ 1 <= d <= DaysInMonth y m.
Proof.
  unfold parseIsoDate.
  destruct s as [|y1 [|y2 [|y3 [|y4 [|h1 [|m1 [|m2 [|h2 [|d1 [|d2 [|x s]]]]]]]]]]];
    try discriminate.
  destruct (digit y1) eqn:E1; try discriminate.
  destruct (digit y2) eqn:E2; try discriminate.
  destruct (digit y3) eqn:E3; try discriminate.
  destruct (digit y4) eqn:E4; try discriminate.
  destruct (digit m1), (digit m2), (digit d1), (digit d2); try discriminate.
  apply digit_bounds in E1, E2, E3, E4.
  match goal with |- context [if ?b then _ else _] => destruct b eqn:Hb end;
    try discriminate.
  intros [= <- <- <-].
  repeat (apply andb_true_iff in Hb as [Hb ?]).
  lia.
Qed.

Lemma Date_parse_iso fallbackParse (s : jsstring) (y m d : Z) :
  parseIsoDate s = Some (y, m, d) ->
  Date_parse fallbackParse s = Some (MakeDay y m d * msPerDay).
Proof. intros H. unfold Date_parse. rewrite H. reflexivity. Qed.

(** Day numbers grow with the year, and a date of year [y] lies before
    the first day of year [y + 1]. *)
Lemma DayFromYear_mono (y y' : Z) : y <= y' -> DayFromYear y <= DayFromYear y'.
Proof. unfold DayFromYear. day_lia. Qed.

Lemma DayFromYear_succ (y : Z) :
  DayFromYear (y + 1) = DayFromYear y + (if InLeapYear y then 366 else 365).
Proof.
  unfold DayFromYear, InLeapYear.
  destruct (Z.eqb_spec (y mod 4) 0), (Z.eqb_spec (y mod 100) 0),
    (Z.eqb_spec (y mod 400) 0); simpl; day_lia.
Qed.

Lemma MakeDay_in_year (y m d : Z) :
  1 <= m <= 12 -> 1 <= d <= DaysInMonth y m ->
  DayFromYear y <= MakeDay y m d < DayFromYear (y + 1).
Proof.
  intros Hm Hd. rewrite DayFromYear_succ. unfold MakeDay.
  assert (m = 1 \/ m = 2 \/ m = 3 \/ m = 4 \/ m = 5 \/ m = 6 \/ m = 7 \/
          m = 8 \/ m = 9 \/ m = 10 \/ m = 11 \/ m = 12) as Hcase by lia.
  unfold DaysBeforeMonth, DaysInMonth in *.
  destruct (InLeapYear y);
    repeat (destruct Hcase as [-> | Hcase]); try subst m; simpl in *; lia.
Qed.

Lemma validateDate_after_today fallbackParse LocalTZA now (s : jsstring) (t : Z) :
  trim s <> [] ->
  Date_parse fallbackParse s = Some t ->
  setHoursEndOfDay LocalTZA (Z.of_N now) < t ->
  validateDate fallbackParse LocalTZA now (FString s) = Normal (Invalid futureMessage).
Proof.
  intros Hs Hp Ht. rewrite (validateDate_parsed _ _ _ s t Hs Hp).
  rewrite (proj2 (Z.ltb_lt _ _) Ht). reflexivity.
Qed.

(** A time value that falls on a later local day than now is rejected. *)
Lemma validateDate_later_local_day fallbackParse LocalTZA now (s : jsstring) (t : Z) :
  trim s <> [] ->
  Date_parse fallbackParse s = Some t ->
  localDay LocalTZA (Z.of_N now) < localDay LocalTZA t ->
  validateDate fallbackParse LocalTZA now (FString s) = Normal (Invalid futureMessage).
Proof.
  intros Hs Hp Ht. apply (validateDate_after_today _ _ _ s t Hs Hp).
  pose proof (setHoursEndOfDay_day LocalTZA (Z.of_N now)) as He.
  unfold localDay, msPerDay in *. day_lia.
Qed.

(** East of Greenwich, and on it, a calendar date after today's local date
    is rejected. *)
Lemma validateDate_iso_future_east fallbackParse LocalTZA now (s : jsstring) (y m d : Z) :
  0 <= LocalTZA ->
  parseIsoDate s = Some (y, m, d) ->
  localDay LocalTZA (Z.of_N now) < MakeDay y m d ->
  validateDate fallbackParse LocalTZA now (FString s) = Normal (Invalid futureMessage).
Proof.
  intros Hz Hp Hd.
  destruct (parseIsoDate_trim s _ Hp) as [Ht Hne].
  apply (validateDate_after_today _ _ _ s (MakeDay y m d * msPerDay)).
  - now rewrite Ht.
  - now apply Date_parse_iso.
  - pose proof (setHoursEndOfDay_day LocalTZA (Z.of_N now)) as He.
    unfold localDay, msPerDay in *. day_lia.
Qed.

(** West of Greenwich the date-only string of tomorrow's local date is
    midnight UTC, which is still today in local time: it passes the check
    against the end of today. *)
Lemma validateDate_iso_tomorrow_west fallbackParse LocalTZA now (s : jsstring) (y m d : Z) :
  - msPerDay <= LocalTZA < 0 ->
  parseIsoDate s = Some (y, m, d) ->
  MakeDay y m d = localDay LocalTZA (Z.of_N now) + 1 ->
  validateDate fallbackParse LocalTZA now (FString s) = Normal Valid.
Proof.
  intros Hz Hp Hd.
  destruct (parseIsoDate_trim s _ Hp) as [Ht Hne].
  rewrite (validateDate_parsed _ _ _ s (MakeDay y m d * msPerDay));
    [|now rewrite Ht|now apply Date_parse_iso].
  pose proof (setHoursEndOfDay_day LocalTZA (Z.of_N now)) as He.
  rewrite Hd. rewrite minDateValue_eq in *.
  assert (setHoursEndOfDay LocalTZA (Z.of_N now)
          >= (localDay LocalTZA (Z.of_N now) + 1) * msPerDay)
    as H1 by (unfold localDay, msPerDay in *; day_lia).
  assert ((localDay LocalTZA (Z.of_N now) + 1) * msPerDay >= -2208988800000)
    as H2 by (unfold localDay, msPerDay in *; day_lia).
  rewrite (proj2 (Z.ltb_ge _ _)) by lia.
  rewrite (proj2 (Z.ltb_ge _ _)) by lia. reflexivity.
Qed.

(** C2: with the clock at 2026-11-01 10:00 in Honolulu, ten hours behind
    UTC all year, today's local date is 2026-11-01, yet validateDate accepts
    the birth date 2026-11-02, a date strictly after the current date. *)
Theorem validateDate_accepts_tomorrow_west_of_utc :
  let LocalTZA := -10 * 3600000 in
  let now := 1793563200000%N in
  localDay LocalTZA (Z.of_N now) = MakeDay 2026 11 1 /\
  parseIsoDate (lit "2026-11-02") = Some (2026, 11, 2) /\
  validateDate (fun _ => None) LocalTZA now (FString (lit "2026-11-02"))
  = Normal Valid.
Proof. vm_compute. auto. Qed.

Lemma validateDate_before_min fallbackParse LocalTZA now (s : jsstring) (t : Z) :
  trim s <> [] ->
  Date_parse fallbackParse s = Some t ->
  t < minDateValue ->
  validateDate fallbackParse LocalTZA now (FString s) = Normal (Invalid minDateMessage).
Proof.
  intros Hs Hp Ht. rewrite (validateDate_parsed _ _ _ s t Hs Hp).
  pose proof (today_after_minDate LocalTZA now).
  rewrite (proj2 (Z.ltb_ge _ _)) by lia.
  rewrite (proj2 (Z.ltb_lt _ _) Ht). reflexivity.
Qed.

(** Every calendar date [YYYY-MM-DD] of a year before 1900 parses to a time
    value before that of 1900-01-01. *)
Lemma iso_before_1900 fallbackParse (s : jsstring) (y m d : Z) :
  parseIsoDate s = Some (y, m, d) ->
  y < 1900 ->
  trim s <> [] /\
  exists t, Date_parse fallbackParse s = Some t /\ t < minDateValue.
Proof.
  intros Hp Hy.
  destruct (parseIsoDate_trim s _ Hp) as [Ht Hne].
  destruct (parseIsoDate_range s y m d Hp) as (_ & Hm & Hd).
  split; [now rewrite Ht|].
  exists (MakeDay y m d * msPerDay). split; [now apply Date_parse_iso|].
  pose proof (MakeDay_in_year y m d Hm Hd) as [_ Hlt].
  pose proof (DayFromYear_mono (y + 1) 1900 ltac:(lia)) as Hmono.
  change minDateValue with (DayFromYear 1900 * msPerDay).
  unfold msPerDay. lia.
Qed.

(** C3: a birth date before 1900-01-01 is rejected with the message of the
    minimum-date rule: every date string that is not blank and denotes a
    time value before 1900-01-01 gets "Birth date must be after 1900". *)
Theorem validateDate_before_1900 fallbackParse LocalTZA now (s : jsstring) (t : Z) :
  trim s <> [] ->
  Date_parse fallbackParse s = Some t ->
  t < minDateValue ->
  validateDate fallbackParse LocalTZA now (FString s)
  = Normal (Invalid (lit "Birth date must be after 1900")).
Proof. apply validateDate_before_min. Qed.

Lemma validateDate_before_1900_witness :
  validateDate (fun _ => None) (8 * 3600000) 1793556000000 (FString (lit "1899-12-31"))
  = Normal (Invalid (lit "Birth date must be after 1900")).
Proof.
  apply (validateDate_before_1900 (fun _ => None) (8 * 3600000) 1793556000000
           (lit "1899-12-31") (-2209075200000)).
  - vm_compute. discriminate.
  - reflexivity.
  - reflexivity.
Defined.

(** The same for every calendar date [YYYY-MM-DD] of a year before 1900,
    in every time zone. *)
Lemma validateDate_iso_before_1900 fallbackParse LocalTZA now (s : jsstring) (y m d : Z) :
  parseIsoDate s = Some (y, m, d) ->
  y < 1900 ->
  validateDate fallbackParse LocalTZA now (FString s) = Normal (Invalid minDateMessage).
Proof.
  intros Hp Hy.
  destruct (iso_before_1900 fallbackParse s y m d Hp Hy) as (Hs & t & Ht & Hlt).
  now apply (validateDate_before_min _ _ _ s t).
Qed.

Lemma validateDate_valid_inv fallbackParse LocalTZA now (s : jsstring) (t : Z) :
  Date_parse fallbackParse s = Some t ->
  validateDate fallbackParse LocalTZA now (FString s) = Normal Valid ->
  minDateValue <= t <= setHoursEndOfDay LocalTZA (Z.of_N now).
Proof.
  intros Hp Hv.
  destruct (jsstring_eqb (trim s) []) eqn:Hb.
  - unfold validateDate in Hv. rewrite missingOrBlank_raw in Hv by reflexivity.
    simpl in Hv. rewrite Hb in Hv. discriminate.
  - assert (trim s <> []) as Hs.
    { intros E. apply jsstring_eqb_nil in E. congruence. }
    rewrite (validateDate_parsed _ _ _ s t Hs Hp) in Hv.
    destruct (Z.ltb_spec (setHoursEndOfDay LocalTZA (Z.of_N now)) t); [discriminate|].
    destruct (Z.ltb_spec t minDateValue); [discriminate|]. lia.
Qed.

(** C9: the comparison with the minimum date is strict.  validateDate
    accepts 1900-01-01; no accepted date has a time value before that of
    1900-01-01; and the day before, 1899-12-31, is rejected with the message
    "Birth date must be after 1900". *)
Theorem validateDate_accepts_1900_01_01 fallbackParse LocalTZA now :
  validateDate fallbackParse LocalTZA now (FString (lit "1900-01-01")) = Normal Valid /\
  (forall s t, Date_parse fallbackParse s = Some t ->
     validateDate fallbackParse LocalTZA now (FString s) = Normal Valid ->
     minDateValue <= t) /\
  validateDate fallbackParse LocalTZA now (FString (lit "1899-12-31"))
  = Normal (Invalid (lit "Birth date must be after 1900")).
Proof.
  pose proof (today_after_minDate LocalTZA now) as Hg. split; [|split].
  - rewrite (validateDate_parsed _ _ _ _ minDateValue);
      [|vm_compute; discriminate|reflexivity].
    rewrite (proj2 (Z.ltb_ge _ _)) by lia. reflexivity.
  - intros s t Hp Hv. eapply validateDate_valid_inv; eauto.
  - apply (validateDate_before_min _ _ _ _ (-2209075200000));
      [vm_compute; discriminate|reflexivity|reflexivity].
Qed.

Lemma validateDate_accepts_1900_01_01_witness :
  validateDate (fun _ => None) 0 1793556000000 (FString (lit "1900-01-01"))
  = Normal Valid /\
  minDateValue <= 749174400000.
Proof.
  pose proof (validateDate_accepts_1900_01_01 (fun _ => None) 0 1793556000000)
    as (H1 & H2 & _).
  split; [exact H1|].
  apply (H2 (lit "1993-09-28") 749174400000); reflexivity.
Defined.

(** C4: a location whose trimmed length is below 3 is rejected, one whose
    trimmed length lies in [3,100] is accepted, and one longer than 100 is
    rejected. *)
Theorem validateLocation_length_bounds (s : jsstring) :
  ((length (trim s) < 3)%nat ->
     exists m, validateLocation (FString s) = Normal (Invalid m)) /\
  ((3 <= length (trim s) <= 100)%nat ->
     validateLocation (FString s) = Normal Valid) /\
  ((100 < length (trim s))%nat ->
     exists m, validateLocation (FString s) = Normal (Invalid m)).
Proof.
  unfold validateLocation. rewrite missingOrBlank_raw by reflexivity. simpl.
  destruct (jsstring_eqb (trim s) []) eqn:Hb.
  - apply jsstring_eqb_nil in Hb. rewrite Hb. simpl.
    repeat split; intros; try lia; eauto.
  - simpl.
    destruct (Nat.ltb_spec (length (trim s)) 3);
      destruct (Nat.ltb_spec 100 (length (trim s)));
      repeat split; intros; try lia; eauto.
Qed.

Lemma validateLocation_length_bounds_witness :
  (exists m, validateLocation (FString (lit " NY ")) = Normal (Invalid m)) /\
  validateLocation (FString (lit "  Singapore ")) = Normal Valid /\
  (exists m, validateLocation (FString (repeat 97%N 101)) = Normal (Invalid m)).
Proof.
  split; [|split].
  - apply (proj1 (validateLocation_length_bounds (lit " NY "))).
    vm_compute. lia.
  - apply (proj1 (proj2 (validateLocation_length_bounds (lit "  Singapore ")))).
    vm_compute. lia.
  - apply (proj2 (proj2 (validateLocation_length_bounds (repeat 97%N 101)))).
    vm_compute. lia.
Defined.

(** C10: validateTime checks presence only.  Every string that is not
    empty after trimming is valid, a clock value or not (such as "abc");
    a string is rejected exactly when it is empty or white space only; and
    a missing value, [null] or [undefined], is rejected. *)
Theorem validateTime_presence_only :
  (forall s, trim s <> [] -> validateTime (FString s) = Normal Valid) /\
  validateTime (FString (lit "abc")) = Normal Valid /\
  (forall s, (exists m, validateTime (FString s) = Normal (Invalid m)) <-> trim s = []) /\
  validateTime FNull = Normal (Invalid (lit "Birth time is required")) /\
  validateTime FUndefined = Normal (Invalid (lit "Birth time is required")).
Proof.
  split; [|split; [|split; [|split]]]; try reflexivity.
  - intros s Hs. rewrite validateTime_raw by reflexivity. simpl.
    destruct (jsstring_eqb (trim s) []) eqn:Hb; [|reflexivity].
    apply jsstring_eqb_nil in Hb. contradiction.
  - intros s. rewrite validateTime_raw by reflexivity. simpl.
    destruct (jsstring_eqb (trim s) []) eqn:Hb.
    + apply jsstring_eqb_nil in Hb. split; eauto.
    + split; [intros [m Hm]; discriminate|].
      intros Hs. apply jsstring_eqb_nil in Hs. congruence.
Qed.

Lemma validateTime_presence_only_witness :
  validateTime (FString (lit " 25:99 ")) = Normal Valid /\
  (exists m, validateTime (FString (lit "   ")) = Normal (Invalid m)).
Proof.
  split.
  - apply (proj1 validateTime_presence_only (lit " 25:99 ")). vm_compute. discriminate.
  - apply (proj1 (proj2 (proj2 validateTime_presence_only))). reflexivity.
Defined.

(** ** Properties of the submit handler *)

Lemma isRaw_entry (e : option jsstring) : isRaw (entry e) = true.
Proof. destruct e; reflexivity. Qed.

(** What the handler reads from the form is raw. *)
Lemma readForm_raw (fd : FormData) : rawFields (readForm fd) = true.
Proof.
  unfold rawFields, readForm. simpl. rewrite !isRaw_entry.
  destruct (formDataGet (lit "location") fd); reflexivity.
Qed.

Section HandlerFacts.

Variable fallbackParse : jsstring -> option Z.
Variable LocalTZA : Z.
Variable now : N.
Variable ToStringOther : Json -> jsstring.
Variable engineMessage : Thrown -> jsstring.
Variable network : Request -> FetchOutcome.

Lemma displayResults_requests (result : Json) (w : World) :
  requests (snd (displayResults ToStringOther result w)) = requests w.
Proof. unfold displayResults. repeat case_match; reflexivity. Qed.

(** The [try] block issues exactly one request. *)
Lemma requestReport_requests (data : FormValues) (w : World) :
  requests (snd (requestReport ToStringOther network data w))
  = requests w ++ [reportRequest data].
Proof.
  unfold requestReport.
  destruct (network (reportRequest data)) as [|status [result|]]; try reflexivity.
  destruct (negb (responseOk status)).
  - destruct (status =? 429); [reflexivity|].
    destruct (failureDetail result); reflexivity.
  - rewrite displayResults_requests. reflexivity.
Qed.

Lemma onSubmit_invalid (fd : FormData) (w : World) (r : FormResult) :
  validateForm fallbackParse LocalTZA now (readForm fd) = Normal r ->
  form_valid r = false ->
  onSubmit fallbackParse LocalTZA now ToStringOther engineMessage network fd w
  = (Normal tt, showError (hd_error (errors r)) (hideError (preventDefault w))).
Proof. intros Hv Hf. unfold onSubmit. rewrite Hv, Hf. reflexivity. Qed.

Lemma onSubmit_valid (fd : FormData) (w : World) (r : FormResult) :
  validateForm fallbackParse LocalTZA now (readForm fd) = Normal r ->
  form_valid r = true ->
  onSubmit fallbackParse LocalTZA now ToStringOther engineMessage network fd w
  = let '(outcome, w1) :=
      requestReport ToStringOther network (readForm fd)
        (hideResults (setLoading true (hideError (preventDefault w)))) in
    (Normal tt,
     setLoading false
       match outcome with
       | Normal _ => w1
       | Throw error => reportFailure engineMessage error w1
       end).
Proof. intros Hv Hf. unfold onSubmit. rewrite Hv, Hf. reflexivity. Qed.

(** C6: the handler validates what it read from the form before anything
    goes on the wire.  When validation fails, it shows the first error of
    the list and issues no request; one request, to /api/generate-report
    with the validated data, is issued only when validation passed. *)
Theorem submit_validates_before_request (fd : FormData) (w : World) :
  let w' := snd (onSubmit fallbackParse LocalTZA now ToStringOther engineMessage
                   network fd w) in
  exists r,
    validateForm fallbackParse LocalTZA now (readForm fd) = Normal r /\
    (form_valid r = false ->
       exists m rest, errors r = m :: rest /\
         errorText w' = m /\ errorVisible w' = true /\
         requests w' = requests w) /\
    (form_valid r = true ->
       requests w' = requests w ++ [reportRequest (readForm fd)] /\
       url (reportRequest (readForm fd))
       = lit "http://localhost:8000/api/generate-report").
Proof.
  destruct (validateForm_results fallbackParse LocalTZA now (readForm fd)
              (readForm_raw fd)) as (rd & rt & rl & rg & _ & _ & _ & _ & Hv).
  match type of Hv with _ = Normal ?x => set (r := x) in *; clearbody r end.
  exists r. split; [exact Hv|]. split.
  - intros Hf. rewrite (onSubmit_invalid fd w r Hv Hf).
    pose proof (validateForm_valid_errors _ _ _ _ _ Hv) as He.
    rewrite Hf in He.
    destruct (errors r) as [|m rest]; [discriminate|].
    exists m, rest. simpl. auto.
  - intros Hf. rewrite (onSubmit_valid fd w r Hv Hf).
    pose proof (requestReport_requests (readForm fd)
      (hideResults (setLoading true (hideError (preventDefault w))))) as Hr.
    destruct (requestReport _ _ _ _) as [outcome w1]. simpl in *.
    split; [|reflexivity].
    destruct outcome; simpl; exact Hr.
Qed.

(** C7, amended: when the request is answered with status 429 and a body
    that parses as JSON, the handler shows the rate-limit message, in place
    of any other failure text, and displays no results: the summary, the
    links and the form card stay as they were and the results card stays
    hidden. *)
Theorem submit_rate_limited (fd : FormData) (w : World) (r : FormResult) (result : Json) :
  validateForm fallbackParse LocalTZA now (readForm fd) = Normal r ->
  form_valid r = true ->
  network (reportRequest (readForm fd)) = Responded 429 (Some result) ->
  let w' := snd (onSubmit fallbackParse LocalTZA now ToStringOther engineMessage
                   network fd w) in
  errorText w'
  = lit "Rate limit exceeded. Please wait a few minutes before trying again." /\
  errorVisible w' = true /\
  resultsVisible w' = false /\
  formCardDisplay w' = formCardDisplay w /\
  (baziCharsText w', dayMasterText w', zodiacText w')
  = (baziCharsText w, dayMasterText w, zodiacText w) /\
  (htmlHref w', pdfHref w') = (htmlHref w, pdfHref w) /\
  submitDisabled w' = false.
Proof.
  intros Hv Hf Hn. rewrite (onSubmit_valid fd w r Hv Hf).
  unfold requestReport. rewrite Hn. simpl. repeat split.
Qed.

End HandlerFacts.

Lemma submit_validates_before_request_witness :
  errorText (snd (onSubmit (fun _ => None) 0 1793556000000 (fun _ => [])
                    (fun _ => lit "Failed to fetch") (fun _ => FetchFailed)
                    incompleteForm initialWorld))
  = lit "Birth time is required" /\
  requests (snd (onSubmit (fun _ => None) 0 1793556000000 (fun _ => [])
                   (fun _ => lit "Failed to fetch") (fun _ => FetchFailed)
                   incompleteForm initialWorld)) = [] /\
  requests (snd (onSubmit (fun _ => None) 0 1793556000000 (fun _ => [])
                   (fun _ => lit "Failed to fetch") (fun _ => FetchFailed)
                   sampleForm initialWorld))
  = [reportRequest (readForm sampleForm)].
Proof.
  destruct (submit_validates_before_request (fun _ => None) 0 1793556000000
              (fun _ => []) (fun _ => lit "Failed to fetch") (fun _ => FetchFailed)
              incompleteForm initialWorld) as (r & Hv & Hbad & _).
  destruct (submit_validates_before_request (fun _ => None) 0 1793556000000
              (fun _ => []) (fun _ => lit "Failed to fetch") (fun _ => FetchFailed)
              sampleForm initialWorld) as (r' & Hv' & _ & Hgood).
  injection Hv as <-. injection Hv' as <-.
  destruct (Hbad eq_refl) as (m & rest & He & Ht & _ & Hr).
  destruct (Hgood eq_refl) as [Hq _].
  injection He as <- _.
  repeat split; assumption.
Defined.

Lemma submit_rate_limited_witness :
  errorText (snd (onSubmit (fun _ => None) 0 1793556000000 (fun _ => [])
                    (fun _ => lit "Failed to fetch")
                    (fun _ => Responded 429
                       (Some (JObject [(lit "error", JString (lit "Too many requests"))])))
                    sampleForm initialWorld))
  = lit "Rate limit exceeded. Please wait a few minutes before trying again.".
Proof.
  apply (submit_rate_limited (fun _ => None) 0 1793556000000 (fun _ => [])
           (fun _ => lit "Failed to fetch")
           (fun _ => Responded 429
              (Some (JObject [(lit "error", JString (lit "Too many requests"))])))
           sampleForm initialWorld
           {| form_valid := true; errors := [] |}
           (JObject [(lit "error", JString (lit "Too many requests"))]));
    reflexivity.
Defined.

(** C7, as stated, fails: a 429 response whose body is not JSON makes
    [response.json()] raise before the status is looked at, and the handler
    shows the text of that error, not the rate-limit message. *)
Lemma submit_429_body_not_json :
  let w' := snd (onSubmit (fun _ => None) 0 1793556000000 (fun _ => [])
                   (fun e => match e with
                             | SyntaxError => lit "Unexpected token 'T'"
                             | _ => lit "Failed to fetch"
                             end)
                   (fun _ => Responded 429 None)
                   sampleForm initialWorld) in
  errorText w' = lit "Unexpected token 'T'" /\
  errorText w' <> rateLimitMessage.
Proof. split; [reflexivity|vm_compute; discriminate]. Qed.

End FrontendFacts.

Module GeocodingFacts.
Import Geocoding.

Section ResolveFacts.

Variable normalize : string -> string.
Variable cachesFallback : bool.

(** A hit leaves the resolver as it was: no call, no permit. *)
Lemma resolve_hit (provider : Provider) (text : string) (st : Resolver) hit :
  cache st !! normalize text = Some hit ->
  resolve normalize cachesFallback provider text st = (hit, st).
Proof. intros H. unfold resolve. rewrite H. reflexivity. Qed.

(** A resolution never removes or replaces an entry of the cache. *)
Lemma resolve_keeps_entries (provider : Provider) (text : string) (st : Resolver)
    (k : string) (g : GeoResolution) :
  cache st !! k = Some g ->
  cache (snd (resolve normalize cachesFallback provider text st)) !! k = Some g.
Proof.
  intros Hk. unfold resolve.
  destruct (cache st !! normalize text) as [hit|] eqn:Hc; simpl; [exact Hk|].
  assert (normalize text <> k) as Hne by (intros E; rewrite E in Hc; congruence).
  destruct (provider text) as [[[lat lon] tz]|]; simpl.
  - rewrite lookup_insert_ne by exact Hne. exact Hk.
  - destruct cachesFallback; [rewrite lookup_insert_ne by exact Hne|]; exact Hk.
Qed.

Lemma resolveAll_keeps_entries (requests : list (Provider * string)) (st : Resolver)
    (k : string) (g : GeoResolution) :
  cache st !! k = Some g ->
  cache (resolveAll normalize cachesFallback requests st) !! k = Some g.
Proof.
  revert st. induction requests as [|[provider text] rest IH]; intros st Hk; simpl.
  - exact Hk.
  - apply IH. apply resolve_keeps_entries. exact Hk.
Qed.

(** After a genuine resolution the entry is in the cache. *)
Lemma resolve_genuine_cached (provider : Provider) (text : string) (st : Resolver) :
  isFallback (fst (resolve normalize cachesFallback provider text st)) = false ->
  cache (snd (resolve normalize cachesFallback provider text st)) !! normalize text
  = Some (fst (resolve normalize cachesFallback provider text st)).
Proof.
  unfold resolve.
  destruct (cache st !! normalize text) as [hit|] eqn:Hc; simpl; [auto|].
  destruct (provider text) as [[[lat lon] tz]|]; simpl.
  - intros _. apply lookup_insert_eq.
  - discriminate.
Qed.

(** Under either policy, and with any normalization: once a text has been
    genuinely resolved, every later resolution in the process of a text
    with the same normalized form, whatever was resolved in between and
    whatever the provider does by then, returns that resolution from the
    cache and leaves the resolver as it is, so it sends nothing and takes
    no permit. *)
Lemma genuine_resolution_stays_cached (p1 p2 : Provider) (a b : string)
    (between : list (Provider * string)) (st : Resolver) :
  normalize a = normalize b ->
  isFallback (fst (resolve normalize cachesFallback p1 a st)) = false ->
  let st1 := snd (resolve normalize cachesFallback p1 a st) in
  let st2 := resolveAll normalize cachesFallback between st1 in
  resolve normalize cachesFallback p2 b st2
  = (fst (resolve normalize cachesFallback p1 a st), st2).
Proof.
  intros Hn Hg. simpl. apply resolve_hit. rewrite <- Hn.
  apply resolveAll_keeps_entries. apply resolve_genuine_cached. exact Hg.
Qed.

End ResolveFacts.

(** If the fallback is cached too, every resolution leaves its key in the
    cache, and resolving the same normalized text again, at any later
    point of the process, is a hit: the two resolutions issue at most one
    outbound call. *)
Lemma caching_fallback_second_is_hit (normalize : string -> string)
    (p1 p2 : Provider) (a b : string) (between : list (Provider * string))
    (st : Resolver) :
  normalize a = normalize b ->
  let st1 := snd (resolve normalize true p1 a st) in
  let st2 := resolveAll normalize true between st1 in
  resolve normalize true p2 b st2 = (fst (resolve normalize true p1 a st), st2) /\
  (outboundCalls st1 <= S (outboundCalls st))%nat.
Proof.
  intros Hn. simpl. split.
  - apply resolve_hit. rewrite <- Hn. apply resolveAll_keeps_entries.
    unfold resolve.
    destruct (cache st !! normalize a) as [hit|] eqn:Hc; simpl; [exact Hc|].
    destruct (p1 a) as [[[lat lon] tz]|]; simpl; apply lookup_insert_eq.
  - unfold resolve. destruct (cache st !! normalize a); simpl; [lia|].
    destruct (p1 a) as [[[lat lon] tz]|]; simpl; lia.
Qed.

(** If the fallback is not cached, a provider that is down is called again
    at the second resolution of the same text. *)
Example not_caching_fallback_two_calls :
  let down : Provider := fun _ => None in
  let st1 := snd (resolve (fun s => s) false down "Paris" emptyResolver) in
  let st2 := snd (resolve (fun s => s) false down "Paris" st1) in
  outboundCalls st2 = 2%nat /\ limiterPermits st2 = 2%nat.
Proof. split; reflexivity. Qed.

Example caching_fallback_one_call :
  let down : Provider := fun _ => None in
  let st1 := snd (resolve (fun s => s) true down "Paris" emptyResolver) in
  let st2 := snd (resolve (fun s => s) true down "Paris" st1) in
  outboundCalls st2 = 1%nat /\ limiterPermits st2 = 1%nat.
Proof. split; reflexivity. Qed.

End GeocodingFacts.

Module StartupFacts.
Import Frontend Startup FrontendFacts.

Example toISOString_sample :
  toISOString 1793563200123 = lit "2026-11-01T20:00:00.123Z"
  /\ beforeT (toISOString 1793563200123) = lit "2026-11-01"
  /\ beforeT (toISOString 253402300800000) = lit "+010000-01-01".
Proof. vm_compute. auto. Qed.

(** *** Calendar dates from day numbers *)

Lemma DayFromYear_1970 (j : Z) : 0 <= j -> 365 * j <= DayFromYear (1970 + j).
Proof. intros Hj. unfold DayFromYear. day_lia. Qed.

Lemma yearDown_spec (fuel : nat) (y day : Z) :
  day < DayFromYear (y + 1) ->
  DayFromYear (y - Z.of_nat fuel) <= day ->
  DayFromYear (yearDown fuel y day) <= day < DayFromYear (yearDown fuel y day + 1).
Proof.
  revert y. induction fuel as [|fuel IH]; intros y Hup Hlow.
  - simpl. replace (y - Z.of_nat 0) with y in Hlow by lia. lia.
  - simpl. destruct (Z.leb_spec (DayFromYear y) day) as [Hle|Hgt]; [lia|].
    apply IH.
    + replace (y - 1 + 1) with y by lia. exact Hgt.
    + replace (y - 1 - Z.of_nat fuel) with (y - Z.of_nat (S fuel)) by lia.
      exact Hlow.
Qed.

(** The year of a day since the epoch is the one that contains it. *)
Lemma YearFromDay_spec (day : Z) :
  0 <= day ->
  DayFromYear (YearFromDay day) <= day < DayFromYear (YearFromDay day + 1).
Proof.
  intros Hd. unfold YearFromDay. apply yearDown_spec.
  - pose proof (DayFromYear_1970 (day / 365 + 1) ltac:(day_lia)).
    replace (1970 + day / 365 + 1) with (1970 + (day / 365 + 1)) by lia.
    day_lia.
  - rewrite Z2Nat.id by day_lia.
    replace (1970 + day / 365 - day / 365) with 1970 by lia.
    change (DayFromYear 1970) with 0. lia.
Qed.

Lemma YearFromDay_lt (day y : Z) :
  0 <= day -> day < DayFromYear y -> YearFromDay day < y.
Proof.
  intros Hd Hy. pose proof (YearFromDay_spec day Hd) as [Hlo _].
  destruct (Z.lt_ge_cases (YearFromDay day) y) as [|Hge]; [assumption|].
  pose proof (DayFromYear_mono y (YearFromDay day) Hge). lia.
Qed.

Lemma YearFromDay_ge (day : Z) : 0 <= day -> 1970 <= YearFromDay day.
Proof.
  intros Hd. pose proof (YearFromDay_spec day Hd) as [_ Hhi].
  destruct (Z.lt_ge_cases (YearFromDay day) 1970) as [Hlt|]; [|assumption].
  pose proof (DayFromYear_mono (YearFromDay day + 1) 1970 ltac:(lia)) as Hm.
  change (DayFromYear 1970) with 0 in Hm. lia.
Qed.

(** [civilFromDay] inverts [MakeDay] and gives a legal month and day. *)
Lemma civilFromDay_spec (day y m d : Z) :
  0 <= day ->
  civilFromDay day = (y, m, d) ->
  1970 <= y /\ 1 <= m <= 12 /\ 1 <= d <= DaysInMonth y m /\ MakeDay y m d = day.
Proof.
  intros Hd. unfold civilFromDay. intros [= <- <- <-].
  pose proof (YearFromDay_spec day Hd) as [Hlo Hhi].
  pose proof (YearFromDay_ge day Hd) as Hy.
  rewrite DayFromYear_succ in Hhi.
  set (y := YearFromDay day) in *. set (n := day - DayFromYear y).
  assert (0 <= n) as Hn0 by (unfold n; lia).
  assert (n < if InLeapYear y then 366 else 365) as Hn1 by (unfold n; lia).
  split; [exact Hy|].
  assert (MakeDay y (MonthFromDay y n) (n - DaysBeforeMonth y (MonthFromDay y n) + 1)
          = day) as Hmk by (unfold MakeDay, n; lia).
  rewrite Hmk. clearbody n. clear Hlo Hhi Hmk.
  unfold MonthFromDay, DaysBeforeMonth, DaysInMonth.
  destruct (InLeapYear y); simpl;
    repeat match goal with
           | |- context [?a <? ?b] => destruct (Z.ltb_spec a b); simpl
           end; lia.
Qed.

(** *** Digits *)

Lemma digitChar_range (x : Z) : (48 <= digitChar x <= 57)%N.
Proof. unfold digitChar. pose proof (Z.mod_pos_bound x 10 ltac:(lia)). lia. Qed.

Lemma digit_digitChar (x : Z) : digit (digitChar x) = Some (x mod 10).
Proof.
  pose proof (digitChar_range x) as [H1 H2]. unfold digit.
  rewrite (proj2 (N.leb_le _ _) H1), (proj2 (N.leb_le _ _) H2). simpl.
  f_equal. unfold digitChar.
  pose proof (Z.mod_pos_bound x 10 ltac:(lia)). lia.
Qed.

(** The date-only form that [toISOString] writes reads back as the date
    it was written from. *)
Lemma parseIsoDate_written (y m d : Z) :
  0 <= y <= 9999 -> 1 <= m <= 12 -> 1 <= d <= DaysInMonth y m ->
  parseIsoDate (pad4 y ++ [45%N] ++ pad2 m ++ [45%N] ++ pad2 d) = Some (y, m, d).
Proof.
  intros Hy Hm Hd.
  assert (DaysInMonth y m <= 31) as Hdm.
  { unfold DaysInMonth. repeat case_match; lia. }
  unfold pad4, pad2. simpl. unfold parseIsoDate. rewrite !digit_digitChar.
  replace (1000 * ((y / 1000) mod 10) + 100 * ((y / 100) mod 10)
           + 10 * ((y / 10) mod 10) + y mod 10) with y by day_lia.
  replace (10 * ((m / 10) mod 10) + m mod 10) with m by day_lia.
  replace (10 * ((d / 10) mod 10) + d mod 10) with d by day_lia.
  simpl.
  rewrite (proj2 (Z.leb_le 1 m)), (proj2 (Z.leb_le m 12)),
    (proj2 (Z.leb_le 1 d)), (proj2 (Z.leb_le d _)) by lia.
  reflexivity.
Qed.

Lemma digitChar_not_T (x : Z) : (digitChar x =? 84)%N = false.
Proof. pose proof (digitChar_range x). apply N.eqb_neq. lia. Qed.

(** Before the year 10000 the part of [toISOString] before the [T] is the
    date-only form of the UTC day. *)
Lemma beforeT_toISOString (t : N) (y m d : Z) :
  civilFromDay (Z.of_N t / msPerDay) = (y, m, d) ->
  y <= 9999 ->
  beforeT (toISOString t) = pad4 y ++ [45%N] ++ pad2 m ++ [45%N] ++ pad2 d.
Proof.
  intros Hc Hy. unfold toISOString. rewrite Hc.
  rewrite (proj2 (Z.leb_le _ _) Hy).
  unfold pad4, pad2. simpl. rewrite !digitChar_not_T. reflexivity.
Qed.

Lemma today_written (now : N) :
  (now < yearTenThousand)%N ->
  exists y m d,
    beforeT (toISOString now) = pad4 y ++ [45%N] ++ pad2 m ++ [45%N] ++ pad2 d /\
    parseIsoDate (beforeT (toISOString now)) = Some (y, m, d) /\
    1970 <= y <= 9999 /\
    MakeDay y m d = Z.of_N now / msPerDay.
Proof.
  intros Hn. unfold yearTenThousand in Hn.
  assert (0 <= Z.of_N now / msPerDay) as Hd by (unfold msPerDay; day_lia).
  destruct (civilFromDay (Z.of_N now / msPerDay)) as [[y m] d] eqn:Hc.
  destruct (civilFromDay_spec _ y m d Hd Hc) as (Hy & Hm & Hdd & Hmk).
  assert (y < 10000) as Hy'.
  { assert (y = YearFromDay (Z.of_N now / msPerDay)) as ->
      by (unfold civilFromDay in Hc; congruence).
    apply YearFromDay_lt; [exact Hd|].
    change (DayFromYear 10000) with 2932897. unfold msPerDay. day_lia. }
  exists y, m, d.
  rewrite (beforeT_toISOString now y m d Hc) by lia.
  repeat split; try lia.
  apply parseIsoDate_written; lia.
Qed.

(** ** More on the field validators *)

Lemma jsstring_eqb_eq (a b : jsstring) : jsstring_eqb a b = true <-> a = b.
Proof.
  revert b. induction a as [|x a IH]; intros [|y b]; simpl; try (split; congruence).
  rewrite andb_true_iff, N.eqb_eq, IH. split.
  - intros [-> ->]. reflexivity.
  - intros [= -> ->]. split; reflexivity.
Qed.

(** X1: validateGender accepts the two strings "male" and "female" and
    nothing else; the comparison is exact, so another case or a padded
    string is rejected.  A missing value (and the empty string) gets
    "Please select a gender", every other rejected value "Gender must be
    male or female". *)
Theorem validateGender_accepts_exactly (v : FieldValue) :
  (validateGender v = Normal Valid <->
     v = FString (lit "male") \/ v = FString (lit "female")) /\
  (falsy v = true ->
     validateGender v = Normal (Invalid (lit "Please select a gender"))) /\
  (falsy v = false -> v <> FString (lit "male") -> v <> FString (lit "female") ->
     validateGender v = Normal (Invalid (lit "Gender must be male or female"))).
Proof.
  unfold validateGender. split; [|split].
  - destruct (falsy v) eqn:Hf.
    + split; [discriminate|]. intros [->| ->]; discriminate.
    + destruct v as [| |n|s]; simpl in *; try (split; [discriminate|]; intros [H|H]; discriminate).
      destruct (jsstring_eqb s (lit "male")) eqn:E1; simpl.
      { apply jsstring_eqb_eq in E1. subst. split; auto. }
      destruct (jsstring_eqb s (lit "female")) eqn:E2; simpl.
      { apply jsstring_eqb_eq in E2. subst. split; auto. }
      split; [discriminate|].
      intros [[= ->]|[= ->]]; [rewrite (proj2 (jsstring_eqb_eq _ _) eq_refl) in E1
                              |rewrite (proj2 (jsstring_eqb_eq _ _) eq_refl) in E2];
        discriminate.
  - intros ->. reflexivity.
  - intros -> Hm Hf. destruct v as [| |n|s]; simpl; try reflexivity.
    destruct (jsstring_eqb s (lit "male")) eqn:E1.
    { apply jsstring_eqb_eq in E1. subst. contradiction. }
    destruct (jsstring_eqb s (lit "female")) eqn:E2.
    { apply jsstring_eqb_eq in E2. subst. contradiction. }
    reflexivity.
Qed.

Lemma validateGender_accepts_exactly_witness :
  validateGender (FString (lit "female")) = Normal Valid /\
  validateGender FNull = Normal (Invalid (lit "Please select a gender")) /\
  validateGender (FString (lit "Male"))
  = Normal (Invalid (lit "Gender must be male or female")) /\
  validateGender (FString (lit " male"))
  = Normal (Invalid (lit "Gender must be male or female")).
Proof.
  split; [|split; [|split]].
  - apply (proj2 (proj1 (validateGender_accepts_exactly (FString (lit "female"))))).
    right. reflexivity.
  - apply (proj1 (proj2 (validateGender_accepts_exactly FNull))). reflexivity.
  - apply (proj2 (proj2 (validateGender_accepts_exactly (FString (lit "Male")))));
      [reflexivity|discriminate|discriminate].
  - apply (proj2 (proj2 (validateGender_accepts_exactly (FString (lit " male")))));
      [reflexivity|discriminate|discriminate].
Defined.

Lemma trim_not_nil_iff (s : jsstring) : jsstring_eqb (trim s) [] = false <-> trim s <> [].
Proof.
  split.
  - intros H E. rewrite (proj2 (jsstring_eqb_nil _) E) in H. discriminate.
  - intros H. destruct (jsstring_eqb (trim s) []) eqn:E; [|reflexivity].
    apply jsstring_eqb_nil in E. contradiction.
Qed.

(** X2: validateDate accepts a string exactly when it is not blank and
    its parsed time value lies between that of 1900-01-01 and the last
    millisecond of today's local day, both included. *)
Theorem validateDate_accepts_iff fallbackParse LocalTZA now (s : jsstring) :
  validateDate fallbackParse LocalTZA now (FString s) = Normal Valid <->
  trim s <> [] /\
  exists t, Date_parse fallbackParse s = Some t /\
            minDateValue <= t <= setHoursEndOfDay LocalTZA (Z.of_N now).
Proof.
  split.
  - intros Hv.
    assert (trim s <> []) as Hs.
    { intros E. unfold validateDate in Hv.
      rewrite missingOrBlank_raw in Hv by reflexivity. simpl in Hv.
      rewrite (proj2 (jsstring_eqb_nil _) E) in Hv. discriminate. }
    split; [exact Hs|].
    destruct (Date_parse fallbackParse s) as [t|] eqn:Hp.
    + exists t. split; [reflexivity|]. eapply validateDate_valid_inv; eauto.
    + unfold validateDate in Hv. rewrite missingOrBlank_raw in Hv by reflexivity.
      simpl in Hv. rewrite (proj2 (trim_not_nil_iff s) Hs) in Hv. simpl in Hv.
      rewrite Hp in Hv. discriminate.
  - intros (Hs & t & Hp & Hlo & Hhi).
    rewrite (validateDate_parsed _ _ _ s t Hs Hp).
    rewrite (proj2 (Z.ltb_ge _ _)), (proj2 (Z.ltb_ge _ _)) by lia. reflexivity.
Qed.

Lemma validateDate_accepts_iff_witness :
  validateDate (fun _ => None) (8 * 3600000) 1793563200000 (FString (lit "1993-09-28"))
  = Normal Valid.
Proof.
  apply (proj2 (validateDate_accepts_iff (fun _ => None) (8 * 3600000) 1793563200000
                  (lit "1993-09-28"))).
  split; [vm_compute; discriminate|].
  exists 749174400000. split; [reflexivity|]. vm_compute. split; discriminate.
Defined.

(** X3: the checks of validateDate come in a fixed order.  A string of
    white space only is reported as missing whatever the engine would parse
    it to, and a string that is not blank and that the engine cannot parse
    gets "Please enter a valid date". *)
Theorem validateDate_blank_then_unparsable fallbackParse LocalTZA now (s : jsstring) :
  (trim s = [] ->
     validateDate fallbackParse LocalTZA now (FString s)
     = Normal (Invalid (lit "Birth date is required"))) /\
  (trim s <> [] -> Date_parse fallbackParse s = None ->
     validateDate fallbackParse LocalTZA now (FString s)
     = Normal (Invalid (lit "Please enter a valid date"))).
Proof.
  unfold validateDate. rewrite missingOrBlank_raw by reflexivity. simpl. split.
  - intros E. rewrite (proj2 (jsstring_eqb_nil _) E). reflexivity.
  - intros Hs Hp. rewrite (proj2 (trim_not_nil_iff s) Hs). simpl.
    rewrite Hp. reflexivity.
Qed.

Lemma validateDate_blank_then_unparsable_witness :
  validateDate (fun _ => Some 0) 0 1793563200000 (FString (lit "  "))
  = Normal (Invalid (lit "Birth date is required")) /\
  validateDate (fun _ => None) 0 1793563200000 (FString (lit "2026-02-30"))
  = Normal (Invalid (lit "Please enter a valid date")).
Proof.
  split.
  - apply (proj1 (validateDate_blank_then_unparsable (fun _ => Some 0) 0 1793563200000
                    (lit "  "))). reflexivity.
  - apply (proj2 (validateDate_blank_then_unparsable (fun _ => None) 0 1793563200000
                    (lit "2026-02-30"))); [vm_compute; discriminate|reflexivity].
Defined.

(** *** Trimming *)

Lemma trimStart_idem (l : jsstring) : trimStart (trimStart l) = trimStart l.
Proof.
  induction l as [|c l IH]; simpl; [reflexivity|].
  destruct (isWhiteSpace c) eqn:E; [exact IH|]. simpl. rewrite E. reflexivity.
Qed.

Lemma trimStart_snoc (l : jsstring) (c : N) :
  isWhiteSpace c = false -> trimStart (l ++ [c]) = trimStart l ++ [c].
Proof.
  intros Hc. induction l as [|x l IH]; simpl.
  - rewrite Hc. reflexivity.
  - destruct (isWhiteSpace x); [exact IH|reflexivity].
Qed.

Lemma trimStart_head (l : jsstring) (c : N) (t : jsstring) :
  trimStart l = c :: t -> isWhiteSpace c = false.
Proof.
  induction l as [|x l IH]; simpl; [discriminate|].
  destruct (isWhiteSpace x) eqn:E; [exact IH|]. intros [= <- _]. exact E.
Qed.

Lemma trim_idempotent (s : jsstring) : trim (trim s) = trim s.
Proof.
  unfold trim, trimEnd.
  destruct (trimStart s) as [|c t] eqn:Ht; [reflexivity|].
  pose proof (trimStart_head s c t Ht) as Hc.
  assert (rev (trimStart (rev (c :: t))) = c :: rev (trimStart (rev t))) as E.
  { change (rev (c :: t)) with (rev t ++ [c]).
    rewrite (trimStart_snoc _ c Hc), rev_app_distr. reflexivity. }
  rewrite E.
  assert (trimStart (c :: rev (trimStart (rev t))) = c :: rev (trimStart (rev t)))
    as -> by (simpl; rewrite Hc; reflexivity).
  change (rev (c :: rev (trimStart (rev t))))
    with (rev (rev (trimStart (rev t))) ++ [c]).
  rewrite rev_involutive, (trimStart_snoc _ c Hc), trimStart_idem.
  rewrite rev_app_distr. reflexivity.
Qed.

(** X4: trimming twice is trimming once, so validateLocation and
    validateTime give the same verdict on a string and on its trimmed form:
    the submit handler, which trims the location before it validates, and
    the blur listener, which does not, agree. *)
Theorem validators_ignore_outer_space (s : jsstring) :
  trim (trim s) = trim s /\
  validateLocation (FString (trim s)) = validateLocation (FString s) /\
  validateTime (FString (trim s)) = validateTime (FString s).
Proof.
  split; [apply trim_idempotent|]. split.
  - unfold validateLocation. rewrite !missingOrBlank_raw by reflexivity.
    simpl. rewrite !trim_idempotent. reflexivity.
  - rewrite !validateTime_raw by reflexivity. simpl.
    rewrite trim_idempotent. reflexivity.
Qed.

(** *** validateForm *)

Lemma missingOrBlank_cases (v : FieldValue) :
  missingOrBlank v = if nonZeroNumber v then Throw TypeError else Normal (isBlank v).
Proof.
  destruct v as [| |n|[|c s]]; try reflexivity.
  unfold missingOrBlank. simpl. destruct (n =? 0); reflexivity.
Qed.

Lemma validateDate_cases fallbackParse LocalTZA now (v : FieldValue) :
  if nonZeroNumber v
  then validateDate fallbackParse LocalTZA now v = Throw TypeError
  else exists r, validateDate fallbackParse LocalTZA now v = Normal r.
Proof.
  unfold validateDate. rewrite missingOrBlank_cases.
  destruct (nonZeroNumber v); [reflexivity|]. simpl. repeat case_match; eauto.
Qed.

Lemma validateTime_cases (v : FieldValue) :
  if nonZeroNumber v
  then validateTime v = Throw TypeError
  else exists r, validateTime v = Normal r.
Proof.
  unfold validateTime. rewrite missingOrBlank_cases.
  destruct (nonZeroNumber v); [reflexivity|]. simpl. repeat case_match; eauto.
Qed.

Lemma validateLocation_cases (v : FieldValue) :
  if nonZeroNumber v
  then validateLocation v = Throw TypeError
  else exists r, validateLocation v = Normal r.
Proof.
  unfold validateLocation. rewrite missingOrBlank_cases.
  destruct (nonZeroNumber v) eqn:Hn; [reflexivity|]. simpl.
  destruct (isBlank v) eqn:Hb; [eauto|].
  destruct (callTrim_not_blank v Hb) as (s & -> & ->). simpl.
  repeat case_match; eauto.
Qed.

(** X5: on field values that are strings, [null], [undefined] or
    integral numbers, validateForm raises exactly when the date, the time or
    the location is an integral number other than zero: such a value passes
    the guard [!v] and has no [trim], and what is raised is the TypeError of
    that call.  On every other set of such values it returns a result; the
    gender never makes it raise.  Values of other kinds (NaN, booleans,
    objects) are outside the values modelled and are not spoken of. *)
Theorem validateForm_raises_iff fallbackParse LocalTZA now (data : FormValues) :
  (trimsANumber data = true ->
     validateForm fallbackParse LocalTZA now data = Throw TypeError) /\
  (trimsANumber data = false ->
     exists r, validateForm fallbackParse LocalTZA now data = Normal r).
Proof.
  unfold trimsANumber, validateForm.
  pose proof (validateDate_cases fallbackParse LocalTZA now (birth_date data)) as Hd.
  pose proof (validateTime_cases (birth_time data)) as Ht.
  pose proof (validateLocation_cases (location data)) as Hl.
  destruct (validateGender_total (gender data)) as [rg Hg].
  destruct (nonZeroNumber (birth_date data)).
  { rewrite Hd. split; [reflexivity|discriminate]. }
  destruct Hd as [rd ->].
  destruct (nonZeroNumber (birth_time data)).
  { rewrite Ht. split; [reflexivity|discriminate]. }
  destruct Ht as [rt ->].
  destruct (nonZeroNumber (location data)).
  { rewrite Hl. split; [reflexivity|discriminate]. }
  destruct Hl as [rl ->]. rewrite Hg. simpl.
  split; [discriminate|]. eauto.
Qed.

Lemma validateForm_raises_iff_witness :
  validateForm (fun _ => None) 0 1793563200000
    {| birth_date := FString (lit "1993-09-28"); birth_time := FNumber 1200;
       location := FNull; gender := FNumber 7 |} = Throw TypeError /\
  exists r, validateForm (fun _ => None) 0 1793563200000
    {| birth_date := FNumber 0; birth_time := FUndefined;
       location := FNull; gender := FNumber 7 |} = Normal r.
Proof.
  split.
  - apply (proj1 (validateForm_raises_iff (fun _ => None) 0 1793563200000
      {| birth_date := FString (lit "1993-09-28"); birth_time := FNumber 1200;
         location := FNull; gender := FNumber 7 |})). reflexivity.
  - apply (proj2 (validateForm_raises_iff (fun _ => None) 0 1793563200000
      {| birth_date := FNumber 0; birth_time := FUndefined;
         location := FNull; gender := FNumber 7 |})). reflexivity.
Defined.

(** X6: whenever validateForm returns, its result holds at most four
    messages, one per failing field, and is valid exactly when it holds
    none. *)
Theorem validateForm_errors_invariant fallbackParse LocalTZA now (data : FormValues) r :
  validateForm fallbackParse LocalTZA now data = Normal r ->
  (length (errors r) <= 4)%nat /\
  (form_valid r = true <-> errors r = []).
Proof.
  unfold validateForm.
  destruct (validateDate _ _ _ _) as [rd|]; [|discriminate].
  destruct (validateTime _) as [rt|]; [|discriminate].
  destruct (validateLocation _) as [rl|]; [|discriminate].
  destruct (validateGender _) as [rg|]; [|discriminate].
  simpl. intros [= <-]. simpl.
  destruct rd, rt, rl, rg; simpl; split; try lia; split; congruence.
Qed.

Lemma validateForm_errors_invariant_witness :
  (length [lit "Birth time is required"; lit "Please select a gender"] <= 4)%nat /\
  (false = true <-> [lit "Birth time is required"; lit "Please select a gender"] = []).
Proof.
  apply (validateForm_errors_invariant (fun _ => None) 0 1793556000000 sampleData
           {| form_valid := false;
              errors := [lit "Birth time is required"; lit "Please select a gender"] |}).
  reflexivity.
Defined.

(** X7: a form in which the date, the time and the location are missing
    or blank and no gender is chosen is invalid with the four "required"
    messages, in the order date, time, location, gender. *)
Theorem validateForm_all_missing fallbackParse LocalTZA now (data : FormValues) :
  missingOrBlank (birth_date data) = Normal true ->
  missingOrBlank (birth_time data) = Normal true ->
  missingOrBlank (location data) = Normal true ->
  falsy (gender data) = true ->
  validateForm fallbackParse LocalTZA now data
  = Normal {| form_valid := false; errors := requiredMessages |}.
Proof.
  intros Hd Ht Hl Hg.
  unfold validateForm, validateDate, validateTime, validateLocation, validateGender.
  rewrite Hd, Ht, Hl, Hg. reflexivity.
Qed.

Lemma validateForm_all_missing_witness :
  validateForm (fun _ => None) 0 1793563200000 (readForm [(lit "location", lit "   ")])
  = Normal {| form_valid := false; errors := requiredMessages |}.
Proof.
  apply (validateForm_all_missing (fun _ => None) 0 1793563200000
           (readForm [(lit "location", lit "   ")])); reflexivity.
Defined.

(** ** The load listener *)

(** X8: before the year 10000 the [max] that the load listener gives the
    date picker is a date-only string, and it reads back as the calendar
    day, in UTC, of the clock: printing with [toISOString] and parsing are
    inverse on it. *)
Theorem dateMax_reads_back (now : N) (i : Inputs) :
  (now < yearTenThousand)%N ->
  exists y m d,
    parseIsoDate (dateMax (onDOMContentLoaded now i)) = Some (y, m, d) /\
    1970 <= y <= 9999 /\
    MakeDay y m d = Z.of_N now / msPerDay.
Proof.
  intros Hn. destruct (today_written now Hn) as (y & m & d & _ & Hp & Hy & Hd).
  exists y, m, d. simpl. auto.
Qed.

Lemma dateMax_reads_back_witness :
  exists y m d,
    parseIsoDate (dateMax (onDOMContentLoaded 1793563200123
                             {| dateMax := []; dateMin := []; timeValue := [];
                                locationValue := []; locationInvalid := false |}))
    = Some (y, m, d) /\
    1970 <= y <= 9999 /\
    MakeDay y m d = Z.of_N 1793563200123 / msPerDay.
Proof.
  apply (dateMax_reads_back 1793563200123). reflexivity.
Defined.

(** X9: the date picker never offers a date that validateDate rejects.
    Once the load listener has set the bounds, every calendar date from the
    picker's [min] to its [max], both included, is accepted by validateDate
    in every time zone. *)
Theorem picker_range_accepted fallbackParse LocalTZA (now : N) (i : Inputs)
    (s : jsstring) (y m d : Z) (lo hi : Z * Z * Z) :
  (now < yearTenThousand)%N ->
  parseIsoDate (dateMin (onDOMContentLoaded now i)) = Some lo ->
  parseIsoDate (dateMax (onDOMContentLoaded now i)) = Some hi ->
  parseIsoDate s = Some (y, m, d) ->
  (let '(y0, m0, d0) := lo in MakeDay y0 m0 d0) <= MakeDay y m d ->
  MakeDay y m d <= (let '(y1, m1, d1) := hi in MakeDay y1 m1 d1) ->
  validateDate fallbackParse LocalTZA now (FString s) = Normal Valid.
Proof.
  intros Hn Hlo Hhi Hp Hge Hle.
  destruct (today_written now Hn) as (y1 & m1 & d1 & _ & Hp1 & _ & Hd1).
  simpl in Hlo, Hhi. rewrite Hp1 in Hhi. injection Hhi as <-.
  change (parseIsoDate (lit "1900-01-01")) with (Some (1900, 1, 1)) in Hlo.
  injection Hlo as <-.
  change (MakeDay 1900 1 1 <= MakeDay y m d) in Hge.
  change (MakeDay y m d <= MakeDay y1 m1 d1) in Hle. rewrite Hd1 in Hle.
  destruct (parseIsoDate_trim _ _ Hp) as [Ht Hne].
  rewrite (validateDate_parsed _ _ _ _ (MakeDay y m d * msPerDay));
    [|now rewrite Ht|now apply Date_parse_iso].
  pose proof (setHoursEndOfDay_ge LocalTZA (Z.of_N now)) as Hg.
  assert (Z.of_N now / msPerDay * msPerDay <= Z.of_N now) as Hb
    by (unfold msPerDay; day_lia).
  assert (minDateValue <= MakeDay y m d * msPerDay) as Hmin
    by (unfold minDateValue, msPerDay; lia).
  assert (MakeDay y m d * msPerDay <= Z.of_N now / msPerDay * msPerDay) as Hmax
    by (unfold msPerDay in *; lia).
  rewrite (proj2 (Z.ltb_ge _ _)), (proj2 (Z.ltb_ge _ _)) by lia. reflexivity.
Qed.

Lemma picker_range_accepted_witness :
  validateDate (fun _ => None) (-10 * 3600000) 1793563200123
    (FString (lit "2026-11-01")) = Normal Valid.
Proof.
  apply (picker_range_accepted (fun _ => None) (-10 * 3600000) 1793563200123
           {| dateMax := []; dateMin := []; timeValue := [];
              locationValue := []; locationInvalid := false |}
           (lit "2026-11-01") 2026 11 1 (1900, 1, 1) (2026, 11, 1));
    try reflexivity; vm_compute; discriminate.
Defined.

Lemma validateLocation_string (s : jsstring) :
  validateLocation (FString s) =
  Normal (match trim s with
          | [] => Invalid (lit "Birth location is required")
          | _ => if (length (trim s) <? 3)%nat
                 then Invalid (lit "Location must be at least 3 characters")
                 else if (100 <? length (trim s))%nat
                 then Invalid (lit "Location is too long (max 100 characters)")
                 else Valid
          end).
Proof.
  unfold validateLocation. rewrite missingOrBlank_raw by reflexivity. simpl.
  destruct (trim s) as [|c t]; simpl; [reflexivity|].
  repeat case_match; reflexivity.
Qed.

(** X10: the blur listener of the location input never raises, touches
    nothing but the class [invalid], and leaves that class off exactly when
    the trimmed text has 3 to 100 code units, whatever the class was. *)
Theorem blur_marks_invalid (i : Inputs) :
  exists i',
    onLocationBlur i = Normal i' /\
    (locationInvalid i' = false <-> (3 <= length (trim (locationValue i)) <= 100)%nat) /\
    (dateMax i', dateMin i', timeValue i', locationValue i')
    = (dateMax i, dateMin i, timeValue i, locationValue i).
Proof.
  unfold onLocationBlur. rewrite validateLocation_string. simpl.
  eexists. split; [reflexivity|]. simpl. split; [|reflexivity].
  destruct (trim (locationValue i)) as [|c t] eqn:E; simpl.
  - split; [discriminate|lia].
  - destruct (Nat.ltb_spec (S (length t)) 3); simpl; [split; [discriminate|lia]|].
    destruct (Nat.ltb_spec 100 (S (length t))); simpl; split;
      try discriminate; try lia; auto.
Qed.

(** ** More on the submit handler *)

Ltac literal_not_empty := vm_compute; discriminate.

(** No validator rejects with an empty message. *)
Lemma validateDate_message fallbackParse LocalTZA now v m :
  validateDate fallbackParse LocalTZA now v = Normal (Invalid m) -> m <> [].
Proof.
  unfold validateDate. destruct (missingOrBlank v) as [[|]|]; simpl;
    repeat case_match; intros [= <-]; literal_not_empty.
Qed.

Lemma validateTime_message v m : validateTime v = Normal (Invalid m) -> m <> [].
Proof.
  unfold validateTime. destruct (missingOrBlank v) as [[|]|]; simpl;
    intros [= <-]; literal_not_empty.
Qed.

Lemma validateLocation_message v m : validateLocation v = Normal (Invalid m) -> m <> [].
Proof.
  unfold validateLocation. destruct (missingOrBlank v) as [[|]|]; simpl;
    try (intros [= <-]; literal_not_empty).
  destruct (callTrim v); simpl; [|discriminate].
  repeat case_match; intros [= <-]; literal_not_empty.
Qed.

Lemma validateGender_message v m : validateGender v = Normal (Invalid m) -> m <> [].
Proof.
  unfold validateGender. repeat case_match; intros [= <-]; literal_not_empty.
Qed.

Lemma validateForm_first_error fallbackParse LocalTZA now data r :
  validateForm fallbackParse LocalTZA now data = Normal r ->
  form_valid r = false ->
  exists m rest, errors r = m :: rest /\ m <> [].
Proof.
  unfold validateForm.
  destruct (validateDate _ _ _ _) as [rd|] eqn:Ed; [|discriminate].
  destruct (validateTime _) as [rt|] eqn:Et; [|discriminate].
  destruct (validateLocation _) as [rl|] eqn:El; [|discriminate].
  destruct (validateGender _) as [rg|] eqn:Eg; [|discriminate].
  simpl. intros [= <-]. simpl.
  destruct rd as [|md], rt as [|mt], rl as [|ml], rg as [|mg]; simpl;
    intros Hf; try discriminate; eexists _, _; (split; [reflexivity|]);
    eauto using validateDate_message, validateTime_message,
      validateLocation_message, validateGender_message.
Qed.

Section MoreHandlerFacts.

Variable fallbackParse : jsstring -> option Z.
Variable LocalTZA : Z.
Variable now : N.
Variable ToStringOther : Json -> jsstring.
Variable engineMessage : Thrown -> jsstring.
Variable network : Request -> FetchOutcome.

(** [displayResults] reveals the results only when nothing raised, and
    never touches the error box, the button or the log of requests. *)
Lemma displayResults_outcome (result : Json) (w : World) :
  let '(o, w1) := displayResults ToStringOther result w in
  errorText w1 = errorText w /\ errorVisible w1 = errorVisible w /\
  submitDisabled w1 = submitDisabled w /\ submitLoading w1 = submitLoading w /\
  defaultPrevented w1 = defaultPrevented w /\
  match o with
  | Normal _ => resultsVisible w1 = true /\ formCardDisplay w1 = DisplayNone
  | Throw _ => resultsVisible w1 = resultsVisible w /\
               formCardDisplay w1 = formCardDisplay w
  end.
Proof.
  unfold displayResults.
  destruct (summaryField _ result keyBazi); [|simpl; repeat split].
  destruct (summaryField _ result keyDayMaster); [|simpl; repeat split].
  destruct (summaryField _ result keyZodiac); [|simpl; repeat split].
  destruct (fileLink _ result (lit "html")); [|simpl; repeat split].
  destruct (fileLink _ result (lit "pdf")); simpl; repeat split.
Qed.

Lemma requestReport_outcome (data : FormValues) (w : World) :
  let '(o, w1) := requestReport ToStringOther network data w in
  errorText w1 = errorText w /\ errorVisible w1 = errorVisible w /\
  submitDisabled w1 = submitDisabled w /\ submitLoading w1 = submitLoading w /\
  defaultPrevented w1 = defaultPrevented w /\
  match o with
  | Normal _ => resultsVisible w1 = true /\ formCardDisplay w1 = DisplayNone
  | Throw _ => resultsVisible w1 = resultsVisible w /\
               formCardDisplay w1 = formCardDisplay w
  end.
Proof.
  unfold requestReport.
  destruct (network (reportRequest data)) as [|status [result|]];
    try (simpl; repeat split).
  destruct (negb (responseOk status)).
  - destruct (status =? 429); [simpl; repeat split|].
    destruct (failureDetail result); simpl; repeat split.
  - pose proof (displayResults_outcome result (send (reportRequest data) w)) as H.
    destruct (displayResults _ _ _) as [o w1]. exact H.
Qed.

Lemma reportFailure_text (e : Thrown) (w : World) :
  errorText (reportFailure engineMessage e w) <> [] /\
  errorVisible (reportFailure engineMessage e w) = true.
Proof.
  unfold reportFailure. simpl. split; [|reflexivity].
  destruct (errorMessageOf engineMessage e); [literal_not_empty|discriminate].
Qed.

(** X11: the handler never rejects and always prevents the page reload,
    and every submission leaves the page in one of three states.  Either
    validation failed: a non-empty error is shown, nothing was sent, and the
    results card and the button are as they were.  Or the report is shown:
    the results card is visible, the form card hidden and no error shown.
    Or the request failed: a non-empty error is shown, the results card is
    hidden and the form card is as it was.  In the last two the button is
    enabled again and no longer loading. *)
Theorem submit_ends_in_three_states (fd : FormData) (w : World) :
  let run := onSubmit fallbackParse LocalTZA now ToStringOther engineMessage
               network fd w in
  let w' := snd run in
  fst run = Normal tt /\ defaultPrevented w' = true /\
  ((errorVisible w' = true /\ errorText w' <> [] /\ requests w' = requests w /\
    resultsVisible w' = resultsVisible w /\ submitDisabled w' = submitDisabled w /\
    submitLoading w' = submitLoading w /\
    formCardDisplay w' = formCardDisplay w)
   \/
   (resultsVisible w' = true /\ formCardDisplay w' = DisplayNone /\
    errorVisible w' = false /\ errorText w' = [] /\
    submitDisabled w' = false /\ submitLoading w' = false)
   \/
   (resultsVisible w' = false /\ errorVisible w' = true /\ errorText w' <> [] /\
    formCardDisplay w' = formCardDisplay w /\
    submitDisabled w' = false /\ submitLoading w' = false)).
Proof.
  destruct (validateForm_results fallbackParse LocalTZA now (readForm fd)
              (readForm_raw fd)) as (rd & rt & rl & rg & _ & _ & _ & _ & Hv).
  match type of Hv with _ = Normal ?x => set (r := x) in *; clearbody r end.
  destruct (form_valid r) eqn:Hf.
  - rewrite (onSubmit_valid _ _ _ ToStringOther engineMessage network fd w r Hv Hf).
    pose proof (requestReport_outcome (readForm fd)
      (hideResults (setLoading true (hideError (preventDefault w))))) as H.
    destruct (requestReport _ _ _ _) as [[[]|e] w1]; simpl in *;
      destruct H as (H1 & H2 & H3 & H4 & H5 & H6 & H7).
    + split; [reflexivity|]. split; [exact H5|]. right; left. auto 10.
    + destruct (reportFailure_text e w1) as [Ht Hvz].
      split; [reflexivity|]. split; [exact H5|]. right; right.
      repeat split; auto.
  - rewrite (onSubmit_invalid _ _ _ ToStringOther engineMessage network fd w r Hv Hf).
    destruct (validateForm_first_error _ _ _ _ _ Hv Hf) as (m & rest & He & Hm).
    simpl. rewrite He. simpl. split; [reflexivity|]. split; [reflexivity|].
    left. auto 10.
Qed.

(** X12: when the server answers with a success status and a body whose
    [bazi_summary] and [files] are objects, the handler shows the report:
    each of the three summary fields holds its entry, or "-" when the entry
    is missing or falsy; each link is the base URL followed by the path, or
    by "undefined" when the path is missing; the results card is visible,
    the form card hidden, and no error is shown. *)
Theorem submit_displays_report (fd : FormData) (w : World) (r : FormResult)
    (status : Z) (fields summary files : list (jsstring * Json)) :
  validateForm fallbackParse LocalTZA now (readForm fd) = Normal r ->
  form_valid r = true ->
  network (reportRequest (readForm fd)) = Responded status (Some (JObject fields)) ->
  responseOk status = true ->
  lookupField (lit "bazi_summary") fields = Some (JObject summary) ->
  lookupField (lit "files") fields = Some (JObject files) ->
  let w' := snd (onSubmit fallbackParse LocalTZA now ToStringOther engineMessage
                   network fd w) in
  let shown key :=
    ToString ToStringOther (orElse (lookupField key summary) (Some (JString (lit "-")))) in
  let link kind :=
    lit "http://localhost:8000" ++ ToString ToStringOther (lookupField kind files) in
  baziCharsText w' = shown keyBazi /\
  dayMasterText w' = shown keyDayMaster /\
  zodiacText w' = shown keyZodiac /\
  htmlHref w' = link (lit "html") /\
  pdfHref w' = link (lit "pdf") /\
  resultsVisible w' = true /\ formCardDisplay w' = DisplayNone /\
  errorVisible w' = false /\ errorText w' = [].
Proof.
  intros Hv Hf Hn Hok Hs Hfl.
  rewrite (onSubmit_valid _ _ _ ToStringOther engineMessage network fd w r Hv Hf).
  unfold requestReport. rewrite Hn, Hok. simpl.
  unfold displayResults, summaryField, fileLink. simpl. rewrite Hs, Hfl. simpl.
  repeat split.
Qed.

(** X13: a success status with a body that has the summary but no
    [files] makes [displayResults] raise half way: the three summary fields
    are already written, the links are not, the results card is not
    revealed, and the handler shows the text of the engine's TypeError (the
    generic text when that is empty) and logs the error. *)
Theorem submit_success_without_files (fd : FormData) (w : World) (r : FormResult)
    (status : Z) (fields summary : list (jsstring * Json)) :
  validateForm fallbackParse LocalTZA now (readForm fd) = Normal r ->
  form_valid r = true ->
  network (reportRequest (readForm fd)) = Responded status (Some (JObject fields)) ->
  responseOk status = true ->
  lookupField (lit "bazi_summary") fields = Some (JObject summary) ->
  lookupField (lit "files") fields = None ->
  let w' := snd (onSubmit fallbackParse LocalTZA now ToStringOther engineMessage
                   network fd w) in
  let shown key :=
    ToString ToStringOther (orElse (lookupField key summary) (Some (JString (lit "-")))) in
  (baziCharsText w', dayMasterText w', zodiacText w')
  = (shown keyBazi, shown keyDayMaster, shown keyZodiac) /\
  (htmlHref w', pdfHref w') = (htmlHref w, pdfHref w) /\
  resultsVisible w' = false /\ formCardDisplay w' = formCardDisplay w /\
  errorVisible w' = true /\
  errorText w' = match engineMessage TypeError with
                 | [] => lit "Something went wrong. Please try again."
                 | m => m
                 end /\
  consoleErrors w' = consoleErrors w ++ [TypeError].
Proof.
  intros Hv Hf Hn Hok Hs Hfl.
  rewrite (onSubmit_valid _ _ _ ToStringOther engineMessage network fd w r Hv Hf).
  unfold requestReport. rewrite Hn, Hok. simpl.
  unfold displayResults, summaryField, fileLink. simpl. rewrite Hs, Hfl. simpl.
  destruct (engineMessage TypeError); repeat split.
Qed.

(** X14: on an error status other than 429 with a JSON object as body, the
    text shown is chosen in a fixed order: the [message] of [detail] when it
    is a non-empty string; otherwise, with no [detail], the [error] when it
    is a non-empty string; otherwise, with neither, "Report generation
    failed". *)
Theorem submit_failure_message (fd : FormData) (w : World) (r : FormResult)
    (status : Z) (fields : list (jsstring * Json)) :
  validateForm fallbackParse LocalTZA now (readForm fd) = Normal r ->
  form_valid r = true ->
  network (reportRequest (readForm fd)) = Responded status (Some (JObject fields)) ->
  responseOk status = false ->
  status <> 429 ->
  let w' := snd (onSubmit fallbackParse LocalTZA now ToStringOther engineMessage
                   network fd w) in
  (forall detail c m,
     lookupField (lit "detail") fields = Some (JObject detail) ->
     lookupField (lit "message") detail = Some (JString (c :: m)) ->
     errorText w' = c :: m) /\
  (forall c m,
     lookupField (lit "detail") fields = None ->
     lookupField (lit "error") fields = Some (JString (c :: m)) ->
     errorText w' = c :: m) /\
  (lookupField (lit "detail") fields = None ->
   lookupField (lit "error") fields = None ->
   errorText w' = lit "Report generation failed") /\
  errorVisible w' = true /\ resultsVisible w' = false.
Proof.
  intros Hv Hf Hn Hok H429.
  rewrite (onSubmit_valid _ _ _ ToStringOther engineMessage network fd w r Hv Hf).
  unfold requestReport. rewrite Hn, Hok.
  rewrite (proj2 (Z.eqb_neq _ _) H429). simpl.
  split; [|split; [|split]].
  - intros detail c m Hd Hm. unfold failureDetail. simpl.
    rewrite Hd. simpl. rewrite Hm. reflexivity.
  - intros c m Hd He. unfold failureDetail. simpl.
    rewrite Hd. simpl. rewrite He. reflexivity.
  - intros Hd He. unfold failureDetail. simpl.
    rewrite Hd. simpl. rewrite He. reflexivity.
  - destruct (failureDetail (JObject fields)); split; reflexivity.
Qed.

(** X15: when the request fails, or the response body is not JSON
    (whatever the status, a success status included), the handler shows the
    text of the engine's error, or "Something went wrong. Please try again."
    when that text is empty; it logs the error, shows no results, has sent
    the one request and enables the button again. *)
Theorem submit_transport_failure (fd : FormData) (w : World) (r : FormResult)
    (e : Thrown) :
  validateForm fallbackParse LocalTZA now (readForm fd) = Normal r ->
  form_valid r = true ->
  (network (reportRequest (readForm fd)) = FetchFailed /\ e = NetworkError) \/
  (exists status,
     network (reportRequest (readForm fd)) = Responded status None /\
     e = SyntaxError) ->
  let w' := snd (onSubmit fallbackParse LocalTZA now ToStringOther engineMessage
                   network fd w) in
  errorText w' = match engineMessage e with
                 | [] => lit "Something went wrong. Please try again."
                 | m => m
                 end /\
  errorVisible w' = true /\ resultsVisible w' = false /\
  consoleErrors w' = consoleErrors w ++ [e] /\
  requests w' = requests w ++ [reportRequest (readForm fd)] /\
  submitDisabled w' = false.
Proof.
  intros Hv Hf Hn.
  rewrite (onSubmit_valid _ _ _ ToStringOther engineMessage network fd w r Hv Hf).
  unfold requestReport.
  destruct Hn as [[Hn ->]|(status & Hn & ->)]; rewrite Hn; simpl;
    match goal with |- context [engineMessage ?e] => destruct (engineMessage e) end;
    repeat split.
Qed.

End MoreHandlerFacts.

Lemma submit_displays_report_witness :
  let w' := snd (onSubmit (fun _ => None) 0 1793563200000 (fun _ => [])
                   (fun _ => lit "Failed to fetch")
                   (fun _ => Responded 200 (Some okBody)) sampleForm initialWorld) in
  baziCharsText w' = lit "x y z w" /\ dayMasterText w' = lit "-" /\
  htmlHref w' = lit "http://localhost:8000/reports/abc123/report.html" /\
  pdfHref w' = lit "http://localhost:8000undefined" /\
  resultsVisible w' = true.
Proof.
  destruct (submit_displays_report (fun _ => None) 0 1793563200000 (fun _ => [])
              (fun _ => lit "Failed to fetch")
              (fun _ => Responded 200 (Some okBody)) sampleForm initialWorld
              {| form_valid := true; errors := [] |} 200
              [ (lit "report_id", JString (lit "abc123"));
                (lit "bazi_summary", JObject [ (keyBazi, JString (lit "x y z w")) ]);
                (lit "files",
                 JObject [ (lit "html", JString (lit "/reports/abc123/report.html")) ]) ]
              [ (keyBazi, JString (lit "x y z w")) ]
              [ (lit "html", JString (lit "/reports/abc123/report.html")) ]
              eq_refl eq_refl eq_refl eq_refl eq_refl eq_refl)
    as (H1 & H2 & _ & H4 & H5 & H6 & _).
  split; [exact H1|]. split; [exact H2|]. split; [exact H4|].
  split; [exact H5|exact H6].
Defined.

Lemma submit_success_without_files_witness :
  let w' := snd (onSubmit (fun _ => None) 0 1793563200000 (fun _ => [])
                   (fun _ => [])
                   (fun _ => Responded 200
                      (Some (JObject [ (lit "bazi_summary", JObject []) ])))
                   sampleForm initialWorld) in
  baziCharsText w' = lit "-" /\ resultsVisible w' = false /\
  errorText w' = lit "Something went wrong. Please try again.".
Proof.
  destruct (submit_success_without_files (fun _ => None) 0 1793563200000
              (fun _ => []) (fun _ => [])
              (fun _ => Responded 200
                 (Some (JObject [ (lit "bazi_summary", JObject []) ])))
              sampleForm initialWorld
              {| form_valid := true; errors := [] |} 200
              [ (lit "bazi_summary", JObject []) ] []
              eq_refl eq_refl eq_refl eq_refl eq_refl eq_refl)
    as (H1 & _ & H3 & _ & _ & H6 & _).
  split; [exact (f_equal (fun p => fst (fst p)) H1)|].
  split; [exact H3|exact H6].
Defined.

Lemma submit_failure_message_witness :
  errorText (snd (onSubmit (fun _ => None) 0 1793563200000 (fun _ => [])
                    (fun _ => lit "Failed to fetch")
                    (fun _ => Responded 500
                       (Some (JObject [ (lit "detail",
                          JObject [ (lit "message", JString (lit "MCP server down")) ]) ])))
                    sampleForm initialWorld))
  = lit "MCP server down".
Proof.
  destruct (submit_failure_message (fun _ => None) 0 1793563200000 (fun _ => [])
              (fun _ => lit "Failed to fetch")
              (fun _ => Responded 500
                 (Some (JObject [ (lit "detail",
                    JObject [ (lit "message", JString (lit "MCP server down")) ]) ])))
              sampleForm initialWorld
              {| form_valid := true; errors := [] |} 500
              [ (lit "detail",
                 JObject [ (lit "message", JString (lit "MCP server down")) ]) ]
              eq_refl eq_refl eq_refl eq_refl ltac:(discriminate))
    as (H1 & _).
  apply (H1 [ (lit "message", JString (lit "MCP server down")) ]); reflexivity.
Defined.

Lemma submit_transport_failure_witness :
  errorText (snd (onSubmit (fun _ => None) 0 1793563200000 (fun _ => [])
                    (fun _ => lit "Failed to fetch") (fun _ => FetchFailed)
                    sampleForm initialWorld))
  = lit "Failed to fetch".
Proof.
  destruct (submit_transport_failure (fun _ => None) 0 1793563200000 (fun _ => [])
              (fun _ => lit "Failed to fetch") (fun _ => FetchFailed)
              sampleForm initialWorld
              {| form_valid := true; errors := [] |} NetworkError
              eq_refl eq_refl (or_introl (conj eq_refl eq_refl)))
    as (H1 & _).
  exact H1.
Defined.

(** ** The New Report button *)

(** New Report brings back the form view from whatever a submission
    left: the error box is cleared and hidden, the results card hidden, the
    form card displayed, and the form's entries are the defaults of the
    markup.  It sends nothing, and it does not clear the summary and the
    links of the report shown before, which stay in the hidden card. *)
Lemma newReport_returns_to_form fallbackParse LocalTZA now ToStringOther
    engineMessage network (fd defaults : FormData) (w : World) :
  let w1 := snd (onSubmit fallbackParse LocalTZA now ToStringOther engineMessage
                   network fd w) in
  let '(fd2, w2) := onNewReport defaults w1 in
  fd2 = defaults /\
  errorVisible w2 = false /\ errorText w2 = [] /\
  resultsVisible w2 = false /\ formCardDisplay w2 = DisplayBlock /\
  requests w2 = requests w1 /\
  (baziCharsText w2, dayMasterText w2, zodiacText w2, htmlHref w2, pdfHref w2)
  = (baziCharsText w1, dayMasterText w1, zodiacText w1, htmlHref w1, pdfHref w1).
Proof. simpl. repeat split. Qed.

End StartupFacts.
